(** * HeaterMeter control core: a shallow embedding of [grillpid.cpp]

    The development follows [src/arduino/heatermeter/grillpid.cpp]
    function by function.  The target is an 8-bit AVR: [int] and
    [unsigned int] are 16 bits wide, [unsigned char] is 8 bits wide and
    [float] is IEEE-754 binary32.  Integers are values of [Z] with the
    wrap-around of each C type written out; floats are [spec_float] values
    rounded to binary32. *)

From Stdlib Require Import ZArith Bool List Lia Ascii.
From Stdlib Require Import Floats.SpecFloat.
Import ListNotations.
Local Open Scope Z_scope.

(** ** Machine integers *)

Module MachInt.

(** [unsigned char] *)
Definition u8 (z : Z) : Z := z mod 256.

(** [unsigned int] *)
Definition u16 (z : Z) : Z := z mod 65536.

(** [int]; signed overflow wraps on the target. *)
Definition i16 (z : Z) : Z := (z + 32768) mod 65536 - 32768.

Definition INT_MAX : Z := 32767.
Definition INT_MIN : Z := -32768.

(** Arduino's [constrain(amt,low,high)] macro:
    [((amt)<(low)?(low):((amt)>(high)?(high):(amt)))]. *)
Definition constrain (amt low high : Z) : Z :=
  if amt <? low then low else if amt >? high then high else amt.

(** [bit_is_set(sfr, bit)] *)
Definition bit_is_set (sfr b : Z) : bool := Z.testbit sfr b.

(** [mappct(o, a, b)]: [(((b - a) * (unsigned int)o / 100) + a)],
    evaluated in [unsigned int]. *)
Definition mappct (o a b : Z) : Z :=
  u16 (u16 (u16 (b - a) * u16 o) / 100 + a).

End MachInt.
Import MachInt.

(** ** binary32 floats *)

Module F32.

Definition float : Type := spec_float.

Definition prec : Z := 24.
Definition emax : Z := 128.

Definition NAN : float := S754_nan.

Definition isnan (x : float) : bool :=
  match x with S754_nan => true | _ => false end.

Definition add : float -> float -> float := SFadd prec emax.
Definition sub : float -> float -> float := SFsub prec emax.
Definition mul : float -> float -> float := SFmul prec emax.
Definition div : float -> float -> float := SFdiv prec emax.

Definition ltb : float -> float -> bool := SFltb.
Definition leb : float -> float -> bool := SFleb.
Definition gtb (x y : float) : bool := SFltb y x.

(** Conversion of an integer value to [float]. *)
Definition of_int (z : Z) : float := binary_normalize prec emax z 0 false.

(** The decimal literal [n / 10^k], rounded once. *)
Definition of_ratio (n d : Z) : float := div (of_int n) (of_int d).

(** Truncation toward zero of a finite value; [None] for NaN and the
    infinities. *)
Definition trunc (x : float) : option Z :=
  match x with
  | S754_zero _ => Some 0
  | S754_finite s m e =>
      let a := match e with
               | Z0 => Zpos m
               | Zpos p => Zpos m * 2 ^ Zpos p
               | Zneg p => Zpos m / 2 ^ Zpos p
               end in
      Some (if s then - a else a)
  | _ => None
  end.

(** The [(int)x] cast.  Where the truncated value does not fit into
    [int] (and for NaN and the infinities) C leaves the result
    undefined; [undef] is what the target returns there. *)
Definition to_int (undef : float -> Z) (x : float) : Z :=
  match trunc x with
  | Some z => if (INT_MIN <=? z) && (z <=? INT_MAX) then z else i16 (undef x)
  | None => i16 (undef x)
  end.

End F32.
Import F32.

(** ** ProbeAlarm *)

Inductive alarm_idx : Set := ALARM_IDX_LOW | ALARM_IDX_HIGH.

(** The three two-element arrays of the class, one field per element. *)
Record ProbeAlarm : Set := mkProbeAlarm {
  Thresholds_LOW : Z;
  Thresholds_HIGH : Z;
  Ringing_LOW : bool;
  Ringing_HIGH : bool;
  Armed_LOW : bool;
  Armed_HIGH : bool
}.

Definition Thresholds (a : ProbeAlarm) (idx : alarm_idx) : Z :=
  match idx with
  | ALARM_IDX_LOW => Thresholds_LOW a
  | ALARM_IDX_HIGH => Thresholds_HIGH a
  end.

Definition Ringing (a : ProbeAlarm) (idx : alarm_idx) : bool :=
  match idx with
  | ALARM_IDX_LOW => Ringing_LOW a
  | ALARM_IDX_HIGH => Ringing_HIGH a
  end.

Definition Armed (a : ProbeAlarm) (idx : alarm_idx) : bool :=
  match idx with
  | ALARM_IDX_LOW => Armed_LOW a
  | ALARM_IDX_HIGH => Armed_HIGH a
  end.

Definition set_Thresholds (idx : alarm_idx) (v : Z) (a : ProbeAlarm) : ProbeAlarm :=
  match idx with
  | ALARM_IDX_LOW =>
      mkProbeAlarm v (Thresholds_HIGH a) (Ringing_LOW a) (Ringing_HIGH a)
        (Armed_LOW a) (Armed_HIGH a)
  | ALARM_IDX_HIGH =>
      mkProbeAlarm (Thresholds_LOW a) v (Ringing_LOW a) (Ringing_HIGH a)
        (Armed_LOW a) (Armed_HIGH a)
  end.

Definition set_Ringing (idx : alarm_idx) (v : bool) (a : ProbeAlarm) : ProbeAlarm :=
  match idx with
  | ALARM_IDX_LOW =>
      mkProbeAlarm (Thresholds_LOW a) (Thresholds_HIGH a) v (Ringing_HIGH a)
        (Armed_LOW a) (Armed_HIGH a)
  | ALARM_IDX_HIGH =>
      mkProbeAlarm (Thresholds_LOW a) (Thresholds_HIGH a) (Ringing_LOW a) v
        (Armed_LOW a) (Armed_HIGH a)
  end.

Definition set_Armed (idx : alarm_idx) (v : bool) (a : ProbeAlarm) : ProbeAlarm :=
  match idx with
  | ALARM_IDX_LOW =>
      mkProbeAlarm (Thresholds_LOW a) (Thresholds_HIGH a) (Ringing_LOW a)
        (Ringing_HIGH a) v (Armed_HIGH a)
  | ALARM_IDX_HIGH =>
      mkProbeAlarm (Thresholds_LOW a) (Thresholds_HIGH a) (Ringing_LOW a)
        (Ringing_HIGH a) (Armed_LOW a) v
  end.

Definition getLow (a : ProbeAlarm) : Z := Thresholds a ALARM_IDX_LOW.
Definition getHigh (a : ProbeAlarm) : Z := Thresholds a ALARM_IDX_HIGH.

(** [ProbeAlarm::setThreshold] *)
Definition setThreshold (idx : alarm_idx) (value : Z) (a : ProbeAlarm) : ProbeAlarm :=
  let a := set_Armed idx false a in
  let a := set_Ringing idx false a in
  (* 0 just means silence *)
  if value =? 0 then a
  else set_Thresholds idx value a.

Definition setHigh (value : Z) : ProbeAlarm -> ProbeAlarm :=
  setThreshold ALARM_IDX_HIGH value.

Definition setLow (value : Z) : ProbeAlarm -> ProbeAlarm :=
  setThreshold ALARM_IDX_LOW value.

(** Modelled from the spec: [ProbeAlarm::silenceAll] is an inline member of
    [grillpid.h], which is not part of the sources.  The spec has it
    "clear (silence) both alarm flags"; the only operation of the class
    that clears flags is [setThreshold], whose value 0 "just means
    silence". *)
Definition silenceAll (a : ProbeAlarm) : ProbeAlarm :=
  setThreshold ALARM_IDX_HIGH 0 (setThreshold ALARM_IDX_LOW 0 a).

(** ** Small float arrays *)

(** [float Steinhart[4]] *)
Record float4 : Type := mkFloat4 {
  elt0 : float;
  elt1 : float;
  elt2 : float;
  elt3 : float
}.

(** Indices of [Pid[]] and [_pidCurrent[]]. *)
Inductive pid_idx : Set := PIDB | PIDP | PIDI | PIDD.

Record pid_array : Type := mkPidArray {
  at_PIDB : float;
  at_PIDP : float;
  at_PIDI : float;
  at_PIDD : float
}.

Definition get_pid (a : pid_array) (i : pid_idx) : float :=
  match i with
  | PIDB => at_PIDB a
  | PIDP => at_PIDP a
  | PIDI => at_PIDI a
  | PIDD => at_PIDD a
  end.

Definition set_pid (i : pid_idx) (v : float) (a : pid_array) : pid_array :=
  match i with
  | PIDB => mkPidArray v (at_PIDP a) (at_PIDI a) (at_PIDD a)
  | PIDP => mkPidArray (at_PIDB a) v (at_PIDI a) (at_PIDD a)
  | PIDI => mkPidArray (at_PIDB a) (at_PIDP a) v (at_PIDD a)
  | PIDD => mkPidArray (at_PIDB a) (at_PIDP a) (at_PIDI a) v
  end.

(** ** TempProbe and GrillPid state *)

Record TempProbe : Type := mkTempProbe {
  _pin : Z;
  _probeType : Z;
  Offset : Z;
  Steinhart : float4;
  _accumulator : Z;
  _accumulatedCount : Z;
  Temperature : float;
  TemperatureAvg : float;
  Alarms : ProbeAlarm
}.

Definition set_probeType (v : Z) (x : TempProbe) : TempProbe :=
  mkTempProbe (_pin x) v (Offset x) (Steinhart x) (_accumulator x)
    (_accumulatedCount x) (Temperature x) (TemperatureAvg x) (Alarms x).

Definition set_Offset (v : Z) (x : TempProbe) : TempProbe :=
  mkTempProbe (_pin x) (_probeType x) v (Steinhart x) (_accumulator x)
    (_accumulatedCount x) (Temperature x) (TemperatureAvg x) (Alarms x).

Definition set_Steinhart (v : float4) (x : TempProbe) : TempProbe :=
  mkTempProbe (_pin x) (_probeType x) (Offset x) v (_accumulator x)
    (_accumulatedCount x) (Temperature x) (TemperatureAvg x) (Alarms x).

Definition set_accumulator (v : Z) (x : TempProbe) : TempProbe :=
  mkTempProbe (_pin x) (_probeType x) (Offset x) (Steinhart x) v
    (_accumulatedCount x) (Temperature x) (TemperatureAvg x) (Alarms x).

Definition set_accumulatedCount (v : Z) (x : TempProbe) : TempProbe :=
  mkTempProbe (_pin x) (_probeType x) (Offset x) (Steinhart x)
    (_accumulator x) v (Temperature x) (TemperatureAvg x) (Alarms x).

Definition set_Temperature (v : float) (x : TempProbe) : TempProbe :=
  mkTempProbe (_pin x) (_probeType x) (Offset x) (Steinhart x)
    (_accumulator x) (_accumulatedCount x) v (TemperatureAvg x) (Alarms x).

Definition set_TemperatureAvg (v : float) (x : TempProbe) : TempProbe :=
  mkTempProbe (_pin x) (_probeType x) (Offset x) (Steinhart x)
    (_accumulator x) (_accumulatedCount x) (Temperature x) v (Alarms x).

Definition set_Alarms (v : ProbeAlarm) (x : TempProbe) : TempProbe :=
  mkTempProbe (_pin x) (_probeType x) (Offset x) (Steinhart x)
    (_accumulator x) (_accumulatedCount x) (Temperature x) (TemperatureAvg x)
    v.

Record GrillPid : Type := mkGrillPid {
  _fanPin : Z;
  _servoPin : Z;
  Probes : list TempProbe;
  _setPoint : Z;
  Pid : pid_array;
  _pidCurrent : pid_array;
  _pidOutput : Z;
  PidOutputAvg : float;
  _manualOutputMode : bool;
  _pitTemperatureReached : bool;
  LidOpenResumeCountdown : Z;
  _lidOpenDuration : Z;
  LidOpenOffset : Z;
  _maxFanSpeed : Z;
  _minFanSpeed : Z;
  _outputFlags : Z;
  _longPwmTmr : Z;
  _lastBlowerOutput : Z;
  _fanBoostActive : bool;
  _minServoPos : Z;
  _maxServoPos : Z;
  _servoOutput : Z;
  _units : ascii;
  _periodCounter : Z;
  _lastWorkMillis : Z
}.

Definition set_Probes (v : list TempProbe) (x : GrillPid) : GrillPid :=
  mkGrillPid (_fanPin x) (_servoPin x) v (_setPoint x) (Pid x) (_pidCurrent x)
    (_pidOutput x) (PidOutputAvg x) (_manualOutputMode x)
    (_pitTemperatureReached x) (LidOpenResumeCountdown x) (_lidOpenDuration x)
    (LidOpenOffset x) (_maxFanSpeed x) (_minFanSpeed x) (_outputFlags x)
    (_longPwmTmr x) (_lastBlowerOutput x) (_fanBoostActive x) (_minServoPos x)
    (_maxServoPos x) (_servoOutput x) (_units x) (_periodCounter x)
    (_lastWorkMillis x).

Definition set_setPoint (v : Z) (x : GrillPid) : GrillPid :=
  mkGrillPid (_fanPin x) (_servoPin x) (Probes x) v (Pid x) (_pidCurrent x)
    (_pidOutput x) (PidOutputAvg x) (_manualOutputMode x)
    (_pitTemperatureReached x) (LidOpenResumeCountdown x) (_lidOpenDuration x)
    (LidOpenOffset x) (_maxFanSpeed x) (_minFanSpeed x) (_outputFlags x)
    (_longPwmTmr x) (_lastBlowerOutput x) (_fanBoostActive x) (_minServoPos x)
    (_maxServoPos x) (_servoOutput x) (_units x) (_periodCounter x)
    (_lastWorkMillis x).

Definition set_Pid (v : pid_array) (x : GrillPid) : GrillPid :=
  mkGrillPid (_fanPin x) (_servoPin x) (Probes x) (_setPoint x) v
    (_pidCurrent x) (_pidOutput x) (PidOutputAvg x) (_manualOutputMode x)
    (_pitTemperatureReached x) (LidOpenResumeCountdown x) (_lidOpenDuration x)
    (LidOpenOffset x) (_maxFanSpeed x) (_minFanSpeed x) (_outputFlags x)
    (_longPwmTmr x) (_lastBlowerOutput x) (_fanBoostActive x) (_minServoPos x)
    (_maxServoPos x) (_servoOutput x) (_units x) (_periodCounter x)
    (_lastWorkMillis x).

Definition set_pidCurrent (v : pid_array) (x : GrillPid) : GrillPid :=
  mkGrillPid (_fanPin x) (_servoPin x) (Probes x) (_setPoint x) (Pid x) v
    (_pidOutput x) (PidOutputAvg x) (_manualOutputMode x)
    (_pitTemperatureReached x) (LidOpenResumeCountdown x) (_lidOpenDuration x)
    (LidOpenOffset x) (_maxFanSpeed x) (_minFanSpeed x) (_outputFlags x)
    (_longPwmTmr x) (_lastBlowerOutput x) (_fanBoostActive x) (_minServoPos x)
    (_maxServoPos x) (_servoOutput x) (_units x) (_periodCounter x)
    (_lastWorkMillis x).

Definition set_pidOutput (v : Z) (x : GrillPid) : GrillPid :=
  mkGrillPid (_fanPin x) (_servoPin x) (Probes x) (_setPoint x) (Pid x)
    (_pidCurrent x) v (PidOutputAvg x) (_manualOutputMode x)
    (_pitTemperatureReached x) (LidOpenResumeCountdown x) (_lidOpenDuration x)
    (LidOpenOffset x) (_maxFanSpeed x) (_minFanSpeed x) (_outputFlags x)
    (_longPwmTmr x) (_lastBlowerOutput x) (_fanBoostActive x) (_minServoPos x)
    (_maxServoPos x) (_servoOutput x) (_units x) (_periodCounter x)
    (_lastWorkMillis x).

Definition set_PidOutputAvg (v : float) (x : GrillPid) : GrillPid :=
  mkGrillPid (_fanPin x) (_servoPin x) (Probes x) (_setPoint x) (Pid x)
    (_pidCurrent x) (_pidOutput x) v (_manualOutputMode x)
    (_pitTemperatureReached x) (LidOpenResumeCountdown x) (_lidOpenDuration x)
    (LidOpenOffset x) (_maxFanSpeed x) (_minFanSpeed x) (_outputFlags x)
    (_longPwmTmr x) (_lastBlowerOutput x) (_fanBoostActive x) (_minServoPos x)
    (_maxServoPos x) (_servoOutput x) (_units x) (_periodCounter x)
    (_lastWorkMillis x).

Definition set_manualOutputMode (v : bool) (x : GrillPid) : GrillPid :=
  mkGrillPid (_fanPin x) (_servoPin x) (Probes x) (_setPoint x) (Pid x)
    (_pidCurrent x) (_pidOutput x) (PidOutputAvg x) v
    (_pitTemperatureReached x) (LidOpenResumeCountdown x) (_lidOpenDuration x)
    (LidOpenOffset x) (_maxFanSpeed x) (_minFanSpeed x) (_outputFlags x)
    (_longPwmTmr x) (_lastBlowerOutput x) (_fanBoostActive x) (_minServoPos x)
    (_maxServoPos x) (_servoOutput x) (_units x) (_periodCounter x)
    (_lastWorkMillis x).

Definition set_pitTemperatureReached (v : bool) (x : GrillPid) : GrillPid :=
  mkGrillPid (_fanPin x) (_servoPin x) (Probes x) (_setPoint x) (Pid x)
    (_pidCurrent x) (_pidOutput x) (PidOutputAvg x) (_manualOutputMode x) v
    (LidOpenResumeCountdown x) (_lidOpenDuration x) (LidOpenOffset x)
    (_maxFanSpeed x) (_minFanSpeed x) (_outputFlags x) (_longPwmTmr x)
    (_lastBlowerOutput x) (_fanBoostActive x) (_minServoPos x)
    (_maxServoPos x) (_servoOutput x) (_units x) (_periodCounter x)
    (_lastWorkMillis x).

Definition set_LidOpenResumeCountdown (v : Z) (x : GrillPid) : GrillPid :=
  mkGrillPid (_fanPin x) (_servoPin x) (Probes x) (_setPoint x) (Pid x)
    (_pidCurrent x) (_pidOutput x) (PidOutputAvg x) (_manualOutputMode x)
    (_pitTemperatureReached x) v (_lidOpenDuration x) (LidOpenOffset x)
    (_maxFanSpeed x) (_minFanSpeed x) (_outputFlags x) (_longPwmTmr x)
    (_lastBlowerOutput x) (_fanBoostActive x) (_minServoPos x)
    (_maxServoPos x) (_servoOutput x) (_units x) (_periodCounter x)
    (_lastWorkMillis x).

Definition set_lidOpenDuration (v : Z) (x : GrillPid) : GrillPid :=
  mkGrillPid (_fanPin x) (_servoPin x) (Probes x) (_setPoint x) (Pid x)
    (_pidCurrent x) (_pidOutput x) (PidOutputAvg x) (_manualOutputMode x)
    (_pitTemperatureReached x) (LidOpenResumeCountdown x) v (LidOpenOffset x)
    (_maxFanSpeed x) (_minFanSpeed x) (_outputFlags x) (_longPwmTmr x)
    (_lastBlowerOutput x) (_fanBoostActive x) (_minServoPos x)
    (_maxServoPos x) (_servoOutput x) (_units x) (_periodCounter x)
    (_lastWorkMillis x).

Definition set_longPwmTmr (v : Z) (x : GrillPid) : GrillPid :=
  mkGrillPid (_fanPin x) (_servoPin x) (Probes x) (_setPoint x) (Pid x)
    (_pidCurrent x) (_pidOutput x) (PidOutputAvg x) (_manualOutputMode x)
    (_pitTemperatureReached x) (LidOpenResumeCountdown x) (_lidOpenDuration x)
    (LidOpenOffset x) (_maxFanSpeed x) (_minFanSpeed x) (_outputFlags x) v
    (_lastBlowerOutput x) (_fanBoostActive x) (_minServoPos x)
    (_maxServoPos x) (_servoOutput x) (_units x) (_periodCounter x)
    (_lastWorkMillis x).

Definition set_lastBlowerOutput (v : Z) (x : GrillPid) : GrillPid :=
  mkGrillPid (_fanPin x) (_servoPin x) (Probes x) (_setPoint x) (Pid x)
    (_pidCurrent x) (_pidOutput x) (PidOutputAvg x) (_manualOutputMode x)
    (_pitTemperatureReached x) (LidOpenResumeCountdown x) (_lidOpenDuration x)
    (LidOpenOffset x) (_maxFanSpeed x) (_minFanSpeed x) (_outputFlags x)
    (_longPwmTmr x) v (_fanBoostActive x) (_minServoPos x) (_maxServoPos x)
    (_servoOutput x) (_units x) (_periodCounter x) (_lastWorkMillis x).

Definition set_fanBoostActive (v : bool) (x : GrillPid) : GrillPid :=
  mkGrillPid (_fanPin x) (_servoPin x) (Probes x) (_setPoint x) (Pid x)
    (_pidCurrent x) (_pidOutput x) (PidOutputAvg x) (_manualOutputMode x)
    (_pitTemperatureReached x) (LidOpenResumeCountdown x) (_lidOpenDuration x)
    (LidOpenOffset x) (_maxFanSpeed x) (_minFanSpeed x) (_outputFlags x)
    (_longPwmTmr x) (_lastBlowerOutput x) v (_minServoPos x) (_maxServoPos x)
    (_servoOutput x) (_units x) (_periodCounter x) (_lastWorkMillis x).

Definition set_servoOutput (v : Z) (x : GrillPid) : GrillPid :=
  mkGrillPid (_fanPin x) (_servoPin x) (Probes x) (_setPoint x) (Pid x)
    (_pidCurrent x) (_pidOutput x) (PidOutputAvg x) (_manualOutputMode x)
    (_pitTemperatureReached x) (LidOpenResumeCountdown x) (_lidOpenDuration x)
    (LidOpenOffset x) (_maxFanSpeed x) (_minFanSpeed x) (_outputFlags x)
    (_longPwmTmr x) (_lastBlowerOutput x) (_fanBoostActive x) (_minServoPos x)
    (_maxServoPos x) v (_units x) (_periodCounter x) (_lastWorkMillis x).

Definition set_units (v : ascii) (x : GrillPid) : GrillPid :=
  mkGrillPid (_fanPin x) (_servoPin x) (Probes x) (_setPoint x) (Pid x)
    (_pidCurrent x) (_pidOutput x) (PidOutputAvg x) (_manualOutputMode x)
    (_pitTemperatureReached x) (LidOpenResumeCountdown x) (_lidOpenDuration x)
    (LidOpenOffset x) (_maxFanSpeed x) (_minFanSpeed x) (_outputFlags x)
    (_longPwmTmr x) (_lastBlowerOutput x) (_fanBoostActive x) (_minServoPos x)
    (_maxServoPos x) (_servoOutput x) v (_periodCounter x) (_lastWorkMillis x).

Definition set_periodCounter (v : Z) (x : GrillPid) : GrillPid :=
  mkGrillPid (_fanPin x) (_servoPin x) (Probes x) (_setPoint x) (Pid x)
    (_pidCurrent x) (_pidOutput x) (PidOutputAvg x) (_manualOutputMode x)
    (_pitTemperatureReached x) (LidOpenResumeCountdown x) (_lidOpenDuration x)
    (LidOpenOffset x) (_maxFanSpeed x) (_minFanSpeed x) (_outputFlags x)
    (_longPwmTmr x) (_lastBlowerOutput x) (_fanBoostActive x) (_minServoPos x)
    (_maxServoPos x) (_servoOutput x) (_units x) v (_lastWorkMillis x).

Definition set_lastWorkMillis (v : Z) (x : GrillPid) : GrillPid :=
  mkGrillPid (_fanPin x) (_servoPin x) (Probes x) (_setPoint x) (Pid x)
    (_pidCurrent x) (_pidOutput x) (PidOutputAvg x) (_manualOutputMode x)
    (_pitTemperatureReached x) (LidOpenResumeCountdown x) (_lidOpenDuration x)
    (LidOpenOffset x) (_maxFanSpeed x) (_minFanSpeed x) (_outputFlags x)
    (_longPwmTmr x) (_lastBlowerOutput x) (_fanBoostActive x) (_minServoPos x)
    (_maxServoPos x) (_servoOutput x) (_units x) (_periodCounter x) v.

(** [TempProbe::TempProbe(pin)]; members without an initialiser start
    from zeroed static storage. *)
Definition TempProbe_new (pin : Z) : TempProbe :=
  mkTempProbe pin 0 0 (mkFloat4 (S754_zero false) (S754_zero false)
    (S754_zero false) (S754_zero false)) 0 0 NAN NAN
    (mkProbeAlarm 0 0 false false false false).

(** [Probes[i]] *)
Definition probe_at (g : GrillPid) (i : nat) : TempProbe :=
  nth i (Probes g) (TempProbe_new 0).

(** Effects on the output pins. *)
Inductive io_event : Set :=
  | analogWrite (pin value : Z)
  | digitalWrite_HIGH (pin : Z).

(** ** The declarations of [grillpid.h]

    The header is not part of the sources.  Its constants, feature
    switches and inline members that [grillpid.cpp] uses are the fields of
    one record, over which every definition below is parameterised. *)
Record grillpid_h : Type := mkHeader {
  TEMP_PIT : nat;
  TEMP_COUNT : nat;
  TEMP_OVERSAMPLE_BITS : Z;
  TEMP_MEASURE_PERIOD : Z;
  TEMP_AVG_COUNT : Z;
  TEMPPROBE_AVG_SMOOTH : float;
  PIDOUTPUT_AVG_SMOOTH : float;
  LIDOPEN_MIN_AUTORESUME : Z;
  PROBETYPE_INTERNAL : Z;
  PROBETYPE_TC_ANALOG : Z;
  PIDFLAG_INVERT_FAN : Z;
  PIDFLAG_INVERT_SERVO : Z;
  PIDFLAG_FAN_ONLY_MAX : Z;
  PIDFLAG_SERVO_ANY_MAX : Z;
  GRILLPID_CALC_TEMP : bool;
  GRILLPID_FAN_BOOST_ENABLED : bool;
  GRILLPID_SERVO_ENABLED : bool;
  (** [ProbeAlarm::getLowEnabled], [ProbeAlarm::getHighEnabled], as
      functions of the side's threshold *)
  lowEnabled_of : Z -> bool;
  highEnabled_of : Z -> bool;
  (** [GrillPid::isLidOpen], as a function of [LidOpenResumeCountdown]
      and [_lidOpenDuration] *)
  isLidOpen_of : Z -> Z -> bool;
  (** [log] of the C library *)
  log : float -> float;
  (** result of a float-to-int cast where C leaves it undefined *)
  fix_undefined : float -> Z;
  clockCyclesPerMicrosecond : Z
}.

(** ** The functions of [grillpid.cpp] *)

Section Model.

Variable h : grillpid_h.

(** [(int)x] on the target *)
Definition int_of_float (x : float) : Z := to_int (fix_undefined h) x.

(** [static void calcExpMovingAverage(smooth, currAverage, newValue)];
    the result is the new [*currAverage]. *)
Definition calcExpMovingAverage (smooth currAverage newValue : float) : float :=
  if isnan currAverage then newValue
  else
    let newValue := sub newValue currAverage in
    add currAverage (mul smooth newValue).

Definition getLowEnabled (a : ProbeAlarm) : bool := lowEnabled_of h (getLow a).
Definition getHighEnabled (a : ProbeAlarm) : bool := highEnabled_of h (getHigh a).

(** [ProbeAlarm::updateStatus]; [lidOpen] is the value of
    [pid.isLidOpen()] at the call. *)
Definition updateStatus (lidOpen : bool) (value : Z) (a : ProbeAlarm) : ProbeAlarm :=
  (* Low: Arming point >= Thresh + 1.0f, Trigger point < Thresh *)
  let a :=
    if getLowEnabled a then
      if value >=? i16 (getLow a + 1) then set_Armed ALARM_IDX_LOW true a
      else if (value <? getLow a) && Armed a ALARM_IDX_LOW
           then set_Ringing ALARM_IDX_LOW true a
           else a
    else a in
  (* High: Arming point < Thresh - 1.0f, Trigger point >= Thresh *)
  let a :=
    if getHighEnabled a then
      if value <? i16 (getHigh a - 1) then set_Armed ALARM_IDX_HIGH true a
      else if (value >=? getHigh a) && Armed a ALARM_IDX_HIGH
           then set_Ringing ALARM_IDX_HIGH true a
           else a
    else a in
  if lidOpen
  then set_Ringing ALARM_IDX_LOW false (set_Ringing ALARM_IDX_HIGH false a)
  else a.

(** *** TempProbe *)

(** Modelled from the spec: [TempProbe::hasTemperature] is an inline
    member of [grillpid.h]; the spec represents "no temperature" by the
    not-a-number value the constructor stores. *)
Definition hasTemperature (p : TempProbe) : bool := negb (isnan (Temperature p)).

(** [TempProbe::setProbeType] *)
Definition setProbeType (probeType : Z) (p : TempProbe) : TempProbe :=
  set_TemperatureAvg NAN
    (set_Temperature NAN
      (set_accumulatedCount 0
        (set_accumulator 0
          (set_probeType probeType p)))).

(** [#define DIFFMAX(x,y,d) ((x - y + d) <= (d*2U))], on [unsigned int] *)
Definition DIFFMAX (x y d : Z) : bool := u16 (x - y + d) <=? u16 (d * 2).

(** [(1 << (6 + TEMP_OVERSAMPLE_BITS))] *)
Definition diff_limit : Z := Z.shiftl 1 (6 + TEMP_OVERSAMPLE_BITS h).

(** [TempProbe::addAdcValue] *)
Definition addAdcValue (analog_temp : Z) (p : TempProbe) : TempProbe :=
  let acc :=
    (* any read is 0, data invalid *)
    if analog_temp =? 0 then 0
    (* this is the first add, store the value directly *)
    else if _accumulatedCount p =? 0 then analog_temp
    (* one of the reads is more than 6.25% off the average, data invalid *)
    else if negb (DIFFMAX analog_temp (_accumulator p / _accumulatedCount p)
                    diff_limit)
    then 0
    (* else normal add *)
    else if negb (_accumulator p =? 0) then u16 (_accumulator p + analog_temp)
    else _accumulator p in
  set_accumulatedCount (u8 (_accumulatedCount p + 1)) (set_accumulator acc p).

(** [OVERSAMPLE_COUNT[TEMP_OVERSAMPLE_BITS]] *)
Definition OVERSAMPLE_COUNT : Z :=
  nth (Z.to_nat (TEMP_OVERSAMPLE_BITS h)) [1; 4; 16; 64] 0.

(** The sampling loop of [TempProbe::readTemp]: [i] reads remain, [k]
    reads were made; [None] when a read of 0 or >= 1023 ends the loop. *)
Fixpoint readTemp_loop (read : nat -> Z) (i k : nat) (oversampled_adc : Z)
  : option Z :=
  match i with
  | O => Some oversampled_adc
  | S i' =>
      let adc := u16 (read k) in
      if (adc =? 0) || (adc >=? 1023) then None
      else readTemp_loop read i' (S k) (u16 (oversampled_adc + adc))
  end.

(** [TempProbe::readTemp]; [read k] is the result of the [k]-th call of
    [analogRead(_pin)]. *)
Definition readTemp (read : nat -> Z) (p : TempProbe) : TempProbe :=
  match readTemp_loop read (Z.to_nat OVERSAMPLE_COUNT) O 0 with
  | None => addAdcValue 0 p
  | Some oversampled_adc =>
      addAdcValue (Z.shiftr oversampled_adc (TEMP_OVERSAMPLE_BITS h)) p
  end.

(** [TempProbe::setTemperatureC] *)
Definition setTemperatureC (units : ascii) (T : float) (p : TempProbe) : TempProbe :=
  (* Sanity - anything less than -20C or greater than 500C is rejected *)
  if leb T (of_int (-20)) || gtb T (of_int 500) then set_Temperature NAN p
  else
    let t := if Ascii.eqb units "F"
             then add (mul T (div (of_int 9) (of_int 5))) (of_int 32)
             else T in
    set_Temperature (add t (of_int (Offset p))) p.

(** How the first part of [calcTemp] ends: by one of its [return]
    statements, or by reaching the averaging and alarm code. *)
Inductive calcTemp_flow : Type :=
  | Returned (p : TempProbe)
  | Reached_tail (p : TempProbe).

(** [const float ADCmax = (1 << (10+TEMP_OVERSAMPLE_BITS)) - 1] *)
Definition ADCmax : float :=
  of_int (i16 (Z.shiftl 1 (10 + TEMP_OVERSAMPLE_BITS h) - 1)).

(** [TempProbe::calcTemp], up to the [if (hasTemperature())].  [units]
    is [pid.getUnits()] and [is_pit] is [this == pid.Probes[TEMP_PIT]]. *)
Definition calcTemp_convert (units : ascii) (is_pit : bool) (p : TempProbe)
  : calcTemp_flow :=
  if negb (_accumulatedCount p =? 0) then
    let ADCval := _accumulator p / _accumulatedCount p in
    let p := set_accumulatedCount 0 p in
    (* Units 'A' = ADC value *)
    if Ascii.eqb units "A" then Returned (set_Temperature (of_int ADCval) p)
    else if negb (ADCval =? 0) then
      if _probeType p =? PROBETYPE_TC_ANALOG h then
        let mvScale := elt3 (Steinhart p) in
        (* If scale is <100 it is assumed to be mV/C with a 3.3V reference *)
        let mvScale := if ltb mvScale (of_int 100)
                       then div (of_int 3300) mvScale else mvScale in
        Reached_tail
          (setTemperatureC units (mul (div (of_int ADCval) ADCmax) mvScale) p)
      else
        let R := div (elt3 (Steinhart p))
                     (sub (div ADCmax (of_int ADCval)) (of_int 1)) in
        (* Units 'R' = resistance, unless this is the pit probe *)
        if Ascii.eqb units "R" && negb is_pit
        then Returned (set_Temperature R p)
        else
          (* Compute degrees K *)
          let R := log h R in
          let T := div (of_int 1)
                     (add (mul (add (mul (mul (elt2 (Steinhart p)) R) R)
                                    (elt1 (Steinhart p))) R)
                          (elt0 (Steinhart p))) in
          Reached_tail (setTemperatureC units (sub T (of_ratio 27315 100)) p)
    else Reached_tail (set_Temperature NAN p)
  else Reached_tail p.

(** The end of [calcTemp]: lines 216-222. *)
Definition calcTemp_tail (lidOpen : bool) (p : TempProbe) : TempProbe :=
  if hasTemperature p then
    let p := set_TemperatureAvg
               (calcExpMovingAverage (TEMPPROBE_AVG_SMOOTH h)
                  (TemperatureAvg p) (Temperature p)) p in
    set_Alarms (updateStatus lidOpen (int_of_float (Temperature p)) (Alarms p)) p
  else set_Alarms (silenceAll (Alarms p)) p.

(** [TempProbe::calcTemp] *)
Definition calcTemp (units : ascii) (lidOpen is_pit : bool) (p : TempProbe)
  : TempProbe :=
  match calcTemp_convert units is_pit p with
  | Returned p' => p'
  | Reached_tail p' => calcTemp_tail lidOpen p'
  end.

(** *** GrillPid *)

Definition getUnits (g : GrillPid) : ascii := _units g.

(** [GrillPid::isLidOpen] *)
Definition isLidOpen (g : GrillPid) : bool :=
  isLidOpen_of h (LidOpenResumeCountdown g) (_lidOpenDuration g).

(** [Probes[TEMP_PIT]] *)
Definition pit (g : GrillPid) : TempProbe := probe_at g (TEMP_PIT h).

(** [GrillPid::countOfType] *)
Definition countOfType (probeType : Z) (g : GrillPid) : Z :=
  u8 (Z.of_nat (length
    (filter (fun p => _probeType p =? probeType)
       (firstn (TEMP_COUNT h) (Probes g))))).

(** The anti-windup test of [calcPidOutput]:
    [(error > 0 && lastOutput < 100) || (error < 0 && lastOutput > 0)] *)
Definition antiwindup_gate (error : float) (lastOutput : Z) : bool :=
  (gtb error (of_int 0) && (lastOutput <? 100))
  || (ltb error (of_int 0) && (lastOutput >? 0)).

(** [GrillPid::calcPidOutput] *)
Definition calcPidOutput (g : GrillPid) : GrillPid :=
  let lastOutput := _pidOutput g in
  let g := set_pidOutput 0 g in
  (* If the pit probe is registering 0 degrees, don't jack the fan up to MAX *)
  if negb (hasTemperature (pit g)) then g
  (* If we're in lid open mode, fan should be off *)
  else if isLidOpen g then g
  else
    let currentTemp := Temperature (pit g) in
    let error := sub (of_int (_setPoint g)) currentTemp in
    (* PPPPP = fan speed percent per degree of error *)
    let cur := set_pid PIDP (mul (get_pid (Pid g) PIDP) error) (_pidCurrent g) in
    (* IIIII = fan speed percent per degree of accumulated error *)
    let cur :=
      if antiwindup_gate error lastOutput
      then set_pid PIDI (add (get_pid cur PIDI) (mul (get_pid (Pid g) PIDI) error)) cur
      else cur in
    (* DDDDD = fan speed percent per degree of change *)
    let cur := set_pid PIDD
                 (mul (get_pid (Pid g) PIDD)
                      (sub (TemperatureAvg (pit g)) currentTemp)) cur in
    (* BBBBB = fan speed percent *)
    let cur := set_pid PIDB (get_pid (Pid g) PIDB) cur in
    let control :=
      int_of_float
        (add (add (add (get_pid cur PIDB) (get_pid cur PIDP)) (get_pid cur PIDI))
             (get_pid cur PIDD)) in
    set_pidOutput (u8 (constrain control 0 100)) (set_pidCurrent cur g).

(** [GrillPid::getFanSpeed] *)
Definition getFanSpeed (g : GrillPid) : Z :=
  if bit_is_set (_outputFlags g) (PIDFLAG_FAN_ONLY_MAX h) && (_pidOutput g <? 100)
  then 0
  else u8 (u16 (u16 (_pidOutput g) * _maxFanSpeed g) / 100).

(** [PERIOD_SCALE = (LONG_PWM_PERIOD / TEMP_MEASURE_PERIOD)], with
    [LONG_PWM_PERIOD = 10000] *)
Definition PERIOD_SCALE : Z := u16 (10000 / TEMP_MEASURE_PERIOD h).

(** The speed and phase counter that [commitFanOutput] settles on before
    the inversion: lines 319-337. *)
Definition longPwm (g : GrillPid) : Z * Z :=
  let fanSpeed := getFanSpeed g in
  if fanSpeed >=? _minFanSpeed g then (fanSpeed, 0)
  else
    (* Simple PWM, ON for first [FanSpeed] intervals then OFF
       for the remainder of the period *)
    let fanSpeed :=
      if u16 (u16 (PERIOD_SCALE * fanSpeed) / _minFanSpeed g) >? _longPwmTmr g
      then _minFanSpeed g else 0 in
    let tmr := u8 (_longPwmTmr g + 1) in
    (fanSpeed, if tmr >? u16 (PERIOD_SCALE - 1) then 0 else tmr).

(** [GrillPid::commitFanOutput]; the result carries the pin writes. *)
Definition commitFanOutput (g : GrillPid) : GrillPid * list io_event :=
  let '(fanSpeed, tmr) := longPwm g in
  let g := set_longPwmTmr tmr g in
  let fanSpeed :=
    if bit_is_set (_outputFlags g) (PIDFLAG_INVERT_FAN h)
    then u8 (_maxFanSpeed g - fanSpeed) else fanSpeed in
  let newBlowerOutput := u8 (mappct fanSpeed 0 255) in
  let out := [analogWrite (_fanPin g) newBlowerOutput] in
  if GRILLPID_FAN_BOOST_ENABLED h then
    (* If going from 0% to non-0%, turn the blower fully on for one period *)
    let '(g, out) :=
      if (_lastBlowerOutput g =? 0) && negb (newBlowerOutput =? 0)
      then (set_fanBoostActive true g, out ++ [digitalWrite_HIGH (_fanPin g)])
      else (g, out) in
    (set_lastBlowerOutput newBlowerOutput g, out)
  else (g, out).

(** [uSecToTicks(x)]: [((unsigned int)(clockCyclesPerMicrosecond() / 8) * x)] *)
Definition uSecToTicks (x : Z) : Z :=
  u16 (u16 (clockCyclesPerMicrosecond h / 8) * x).

(** [GrillPid::commitServoOutput] *)
Definition commitServoOutput (g : GrillPid) : GrillPid :=
  if GRILLPID_SERVO_ENABLED h then
    let output :=
      if bit_is_set (_outputFlags g) (PIDFLAG_SERVO_ANY_MAX h) && (_pidOutput g >? 0)
      then 100 else _pidOutput g in
    let output :=
      if bit_is_set (_outputFlags g) (PIDFLAG_INVERT_SERVO h)
      then u8 (100 - output) else output in
    (* Get the output speed in 10x usec by LERPing between min and max *)
    let output := u8 (mappct output (_minServoPos g) (_maxServoPos g)) in
    set_servoOutput (uSecToTicks (u16 (10 * output))) g
  else g.

(** [GrillPid::commitPidOutput] *)
Definition commitPidOutput (g : GrillPid) : GrillPid * list io_event :=
  let g := set_PidOutputAvg
             (calcExpMovingAverage (PIDOUTPUT_AVG_SMOOTH h) (PidOutputAvg g)
                (of_int (_pidOutput g))) g in
  let '(g, out) := commitFanOutput g in
  (commitServoOutput g, out).

(** [GrillPid::isAnyFoodProbeActive]; [TEMP_FOOD1] follows [TEMP_PIT]. *)
Definition isAnyFoodProbeActive (g : GrillPid) : bool :=
  existsb hasTemperature
    (skipn (S (TEMP_PIT h)) (firstn (TEMP_COUNT h) (Probes g))).

(** [GrillPid::resetLidOpenResumeCountdown] *)
Definition resetLidOpenResumeCountdown (g : GrillPid) : GrillPid :=
  set_pitTemperatureReached false
    (set_LidOpenResumeCountdown (_lidOpenDuration g) g).

(** [GrillPid::setSetPoint] *)
Definition setSetPoint (value : Z) (g : GrillPid) : GrillPid :=
  let g := set_setPoint value g in
  let g := set_pitTemperatureReached false g in
  let g := set_manualOutputMode false g in
  let g := set_pidCurrent (set_pid PIDI (of_int 0) (_pidCurrent g)) g in
  set_LidOpenResumeCountdown 0 g.

(** [GrillPid::setPidOutput] *)
Definition setPidOutput (value : Z) (g : GrillPid) : GrillPid :=
  let g := set_manualOutputMode true g in
  let g := set_pidOutput (u8 (constrain value 0 100)) g in
  set_LidOpenResumeCountdown 0 g.

(** [GrillPid::setLidOpenDuration] *)
Definition setLidOpenDuration (value : Z) (g : GrillPid) : GrillPid :=
  set_lidOpenDuration
    (if value >? LIDOPEN_MIN_AUTORESUME h then value else LIDOPEN_MIN_AUTORESUME h)
    g.

(** [GrillPid::setPidConstant] *)
Definition setPidConstant (idx : pid_idx) (value : float) (g : GrillPid) : GrillPid :=
  let g := set_Pid (set_pid idx value (Pid g)) g in
  match idx with
  | PIDI => set_pidCurrent (set_pid PIDI (of_int 0) (_pidCurrent g)) g
  | _ => g
  end.

(** [GrillPid::setUnits] *)
Definition setUnits (units : ascii) (g : GrillPid) : GrillPid :=
  if Ascii.eqb units "A" || Ascii.eqb units "C"
     || Ascii.eqb units "F" || Ascii.eqb units "R"
  then set_units units g
  else g.

(** *** The periodic work *)

(** [for (unsigned char i=0; i<TEMP_COUNT; i++) Probes[i]->f()] *)
Fixpoint for_probes (f : nat -> TempProbe -> TempProbe) (i : nat)
    (l : list TempProbe) : list TempProbe :=
  match l with
  | [] => []
  | p :: l' =>
      (if (i <? TEMP_COUNT h)%nat then f i p else p) :: for_probes f (S i) l'
  end.

(** [0.25f] *)
Definition quarter : float := of_ratio 1 4.

(** [((_setPoint-pitTemp)*100/_setPoint)], in [int] *)
Definition lidOpen_percent (setPoint pitTemp : Z) : Z :=
  i16 (Z.quot (i16 (i16 (setPoint - pitTemp) * 100)) setPoint).

(** The lid-open detection of [GrillPid::doWork]: lines 491-518, run
    after [calcPidOutput] when the manual mode is off. *)
Definition doWork_lidOpen (g : GrillPid) : GrillPid :=
  let pitTemp := int_of_float (Temperature (pit g)) in
  if (pitTemp >=? _setPoint g)
     && (u16 (_lidOpenDuration g - LidOpenResumeCountdown g)
           >? u16 (LIDOPEN_MIN_AUTORESUME h))
  then
    (* When we first achieve temperature, reduce any I sum we
       accumulated during startup *)
    let g :=
      if negb (_pitTemperatureReached g) then
        let g := set_pitTemperatureReached true g in
        set_pidCurrent
          (set_pid PIDI (mul (get_pid (_pidCurrent g) PIDI) quarter)
             (_pidCurrent g)) g
      else g in
    set_LidOpenResumeCountdown 0 g
  else if negb (LidOpenResumeCountdown g =? 0) then
    set_LidOpenResumeCountdown
      (u16 (LidOpenResumeCountdown g - TEMP_MEASURE_PERIOD h / 1000)) g
  (* If the pit temperature has been reached
     and if the pit temperature is [lidOpenOffset]% less that the setpoint
     and if the fan has been running less than 90% *)
  else if _pitTemperatureReached g
          && (lidOpen_percent (_setPoint g) pitTemp >=? LidOpenOffset g)
          && (int_of_float (PidOutputAvg g) <? 90)
  then resetLidOpenResumeCountdown g
  else g.

(** The test of the first branch of [doWork_lidOpen] (line 492). *)
Definition reached_test (g : GrillPid) : bool :=
  (int_of_float (Temperature (pit g)) >=? _setPoint g)
  && (u16 (_lidOpenDuration g - LidOpenResumeCountdown g)
        >? u16 (LIDOPEN_MIN_AUTORESUME h)).

(** The test of its last branch (lines 513-515). *)
Definition declare_test (g : GrillPid) : bool :=
  _pitTemperatureReached g
  && (lidOpen_percent (_setPoint g) (int_of_float (Temperature (pit g)))
        >=? LidOpenOffset g)
  && (int_of_float (PidOutputAvg g) <? 90).

(** [for (i=0; i<TEMP_COUNT; i++) Probes[i]->calcTemp()]: lines 482-483. *)
Definition calcTemp_all (g : GrillPid) : GrillPid :=
  set_Probes
    (for_probes
       (fun i => calcTemp (getUnits g) (isLidOpen g) (Nat.eqb i (TEMP_PIT h)))
       O (Probes g)) g.

(** One completed measurement period: lines 482-519. *)
Definition doWork_period (g : GrillPid) : GrillPid :=
  let g := calcTemp_all g in
  if negb (_manualOutputMode g) then
    (* Always calculate the output; calcPidOutput() will bail if it
       isn't supposed to be in control *)
    doWork_lidOpen (calcPidOutput g)
  else g.

(** What [doWork] reads from outside: the successive results of
    [millis()] and, for each pin, of [analogRead(pin)]. *)
Record environment : Type := mkEnvironment {
  millis : nat -> Z;
  analogRead : Z -> nat -> Z
}.

(** [GrillPid::doWork] *)
Definition doWork (env : environment) (g : GrillPid)
  : bool * GrillPid * list io_event :=
  let elapsed := u16 (millis env 0%nat - _lastWorkMillis g) in
  if elapsed <? TEMP_MEASURE_PERIOD h / TEMP_AVG_COUNT h then (false, g, [])
  else
    let g := set_lastWorkMillis (millis env 1%nat mod 2 ^ 32) g in
    (* If boost has been active for one period disable it *)
    let '(g, out0) :=
      if GRILLPID_FAN_BOOST_ENABLED h && _fanBoostActive g
      then (set_fanBoostActive false g,
            [analogWrite (_fanPin g) (_lastBlowerOutput g)])
      else (g, []) in
    if GRILLPID_CALC_TEMP h then
      let g :=
        set_Probes
          (for_probes
             (fun _ p =>
                if (_probeType p =? PROBETYPE_INTERNAL h)
                   || (_probeType p =? PROBETYPE_TC_ANALOG h)
                then readTemp (analogRead env (_pin p)) p else p)
             O (Probes g)) g in
      let g := set_periodCounter (u8 (_periodCounter g + 1)) g in
      if _periodCounter g <? TEMP_AVG_COUNT h then (false, g, out0)
      else
        let g := set_periodCounter 0 g in
        let '(g, out) := commitPidOutput (doWork_period g) in
        (true, g, out0 ++ out)
    else
      let '(g, out) := commitPidOutput g in
      (true, g, out0 ++ out).

(** *** Runs of PID evaluations *)

(** The error that [calcPidOutput] computes: [_setPoint - currentTemp]. *)
Definition pid_error (g : GrillPid) : float :=
  sub (of_int (_setPoint g)) (Temperature (pit g)).

(** [pinned_run g g']: [g'] is reached from [g] by evaluations of
    [calcPidOutput], each entered with a valid pit temperature, the lid
    closed, a positive error and the previous output at 100.  Between
    two evaluations anything but the stored terms may change. *)
Inductive pinned_run : GrillPid -> GrillPid -> Prop :=
  | pinned_done (g : GrillPid) : pinned_run g g
  | pinned_eval (g g1 g' : GrillPid) :
      _pidCurrent g1 = _pidCurrent g ->
      hasTemperature (pit g1) = true ->
      isLidOpen g1 = false ->
      gtb (pid_error g1) (of_int 0) = true ->
      _pidOutput g1 = 100 ->
      pinned_run (calcPidOutput g1) g' ->
      pinned_run g g'.

(** *** The samples of one sub-period *)

(** The [n] reads that [readTemp] makes from read [k] on, as
    [unsigned int]. *)
Definition samples (read : nat -> Z) (k n : nat) : list Z :=
  map (fun j => u16 (read j)) (seq k n).

(** A raw sample at the minimum or at/above the maximum. *)
Definition railed (adc : Z) : bool := (adc =? 0) || (adc >=? 1023).

Definition sum_of (l : list Z) : Z := fold_right Z.add 0 l.

(** *** Configuration and construction *)

(** The members of [struct __eeprom_probe] that [loadConfig] reads. *)
Record eeprom_probe : Type := mkEepromProbe {
  probeType : Z;
  tempOffset : Z;
  steinhart : float4;
  alarmLow : Z;
  alarmHigh : Z
}.

(** [TempProbe::loadConfig] *)
Definition loadConfig (config : eeprom_probe) (p : TempProbe) : TempProbe :=
  let p := set_probeType (probeType config) p in
  let p := set_Offset (tempOffset config) p in
  let p := set_Steinhart (steinhart config) p in
  let p := set_Alarms (setLow (alarmLow config) (Alarms p)) p in
  set_Alarms (setHigh (alarmHigh config) (Alarms p)) p.

(** [GrillPid::GrillPid(fanPin, servoPin)] for the statically allocated
    [pid]: the members without an initialiser start from zero.  The
    probes are the objects that [Probes[]] points to. *)
Definition GrillPid_new (fanPin servoPin : Z) (probes : list TempProbe)
  : GrillPid :=
  mkGrillPid fanPin servoPin probes 0
    (mkPidArray (S754_zero false) (S754_zero false) (S754_zero false)
       (S754_zero false))
    (mkPidArray (S754_zero false) (S754_zero false) (S754_zero false)
       (S754_zero false))
    0 NAN false false 0 0 0 0 0 0 0 0 false 0 0 0 "F"%char 128 0.

(** *** Successive calls of [doWork] *)

(** The first test of [doWork] lets the call through:
    [elapsed >= TEMP_MEASURE_PERIOD / TEMP_AVG_COUNT]. *)
Definition due (env : environment) (g : GrillPid) : bool :=
  negb (u16 (millis env 0%nat - _lastWorkMillis g)
          <? TEMP_MEASURE_PERIOD h / TEMP_AVG_COUNT h).

(** [due_calls g results g']: successive calls of [doWork], each of them
    due, lead from [g] to [g'] and return [results]. *)
Inductive due_calls : GrillPid -> list bool -> GrillPid -> Prop :=
  | due_done (g : GrillPid) : due_calls g [] g
  | due_call (env : environment) (g g' : GrillPid) (results : list bool) :
      due env g = true ->
      due_calls (snd (fst (doWork env g))) results g' ->
      due_calls g (fst (fst (doWork env g)) :: results) g'.

(** *** Checking a predicate on a range of integers *)

(** [f] holds on the [n] integers from [z] on. *)
Fixpoint all_from (f : Z -> bool) (n : nat) (z : Z) : bool :=
  match n with
  | O => true
  | S n' => f z && all_from f n' (z + 1)
  end.

End Model.

(** ** A concrete header

    Modelled from the spec: [grillpid.h] is not part of the sources, so
    the examples below run with one instance of its declarations.  The
    spec fixes a 10 s long-pulse window, an oversampling factor among
    1/4/16/64, "a threshold value of exactly zero means disabled" and the
    lid as open while the resume countdown is active and fewer than the
    minimum auto-resume seconds have elapsed of it; the remaining numbers
    are ordinary settings (a one-second period of four sub-periods, a
    30 s minimum auto-resume).  The C library's [log] is outside the
    sources as well: no example below reaches the Steinhart computation,
    and the instance returns not-a-number for it. *)
Module Example.

Definition smooth (n : Z) : float :=
  div (of_int 2) (add (of_int 1) (of_int n)).

Definition header (oversample_bits : Z) : grillpid_h :=
  {| TEMP_PIT := 0;
     TEMP_COUNT := 4;
     TEMP_OVERSAMPLE_BITS := oversample_bits;
     TEMP_MEASURE_PERIOD := 1000;
     TEMP_AVG_COUNT := 4;
     TEMPPROBE_AVG_SMOOTH := smooth 60;
     PIDOUTPUT_AVG_SMOOTH := smooth 240;
     LIDOPEN_MIN_AUTORESUME := 30;
     PROBETYPE_INTERNAL := 1;
     PROBETYPE_TC_ANALOG := 3;
     PIDFLAG_INVERT_FAN := 0;
     PIDFLAG_INVERT_SERVO := 1;
     PIDFLAG_FAN_ONLY_MAX := 2;
     PIDFLAG_SERVO_ANY_MAX := 3;
     GRILLPID_CALC_TEMP := true;
     GRILLPID_FAN_BOOST_ENABLED := true;
     GRILLPID_SERVO_ENABLED := true;
     lowEnabled_of := fun threshold => negb (threshold =? 0);
     highEnabled_of := fun threshold => negb (threshold =? 0);
     isLidOpen_of := fun countdown duration =>
       negb (countdown =? 0) && (u16 (duration - countdown) <? 30);
     log := fun _ => NAN;
     fix_undefined := fun _ => 0;
     clockCyclesPerMicrosecond := 16 |}.

Definition hdr : grillpid_h := header 1.

(** A thermocouple probe on [pin] showing temperature [t] with average
    [avg] and alarm state [a]. *)
Definition probe (pin : Z) (t avg : float) (a : ProbeAlarm) : TempProbe :=
  mkTempProbe pin 3 0
    (mkFloat4 (of_int 0) (of_int 0) (of_int 0) (of_int 5)) 0 0 t avg a.

Definition no_alarm : ProbeAlarm := mkProbeAlarm 0 0 false false false false.

(** A controller with gains B=0, P=4, I=0.02, D=5, fan limits 10..100
    and a 240 s lid-open duration, whose pit probe shows [t] / [avg]. *)
Definition controller (setPoint : Z) (t avg : float) (output : Z)
    (iterm : float) : GrillPid :=
  {| _fanPin := 3; _servoPin := 8;
     Probes := [probe 5 t avg no_alarm; probe 4 NAN NAN no_alarm;
                probe 3 NAN NAN no_alarm; probe 2 NAN NAN no_alarm];
     _setPoint := setPoint;
     Pid := mkPidArray (of_int 0) (of_int 4) (of_ratio 2 100) (of_int 5);
     _pidCurrent := mkPidArray (of_int 0) (of_int 0) iterm (of_int 0);
     _pidOutput := output;
     PidOutputAvg := of_int output;
     _manualOutputMode := false;
     _pitTemperatureReached := false;
     LidOpenResumeCountdown := 0;
     _lidOpenDuration := 240;
     LidOpenOffset := 6;
     _maxFanSpeed := 100;
     _minFanSpeed := 10;
     _outputFlags := 0;
     _longPwmTmr := 0;
     _lastBlowerOutput := 0;
     _fanBoostActive := false;
     _minServoPos := 100;
     _maxServoPos := 200;
     _servoOutput := 0;
     _units := "F"%char;
     _periodCounter := 0;
     _lastWorkMillis := 0 |}.

(** [g] with the members of the lid-open detection replaced. *)
Definition with_lid (reached : bool) (countdown duration offset : Z)
    (g : GrillPid) : GrillPid :=
  mkGrillPid (_fanPin g) (_servoPin g) (Probes g) (_setPoint g) (Pid g)
    (_pidCurrent g) (_pidOutput g) (PidOutputAvg g) (_manualOutputMode g)
    reached countdown duration offset (_maxFanSpeed g) (_minFanSpeed g)
    (_outputFlags g) (_longPwmTmr g) (_lastBlowerOutput g)
    (_fanBoostActive g) (_minServoPos g) (_maxServoPos g) (_servoOutput g)
    (_units g) (_periodCounter g) (_lastWorkMillis g).

(** [g] with the fan settings and the phase counter replaced. *)
Definition with_fan (minFanSpeed maxFanSpeed outputFlags longPwmTmr : Z)
    (g : GrillPid) : GrillPid :=
  mkGrillPid (_fanPin g) (_servoPin g) (Probes g) (_setPoint g) (Pid g)
    (_pidCurrent g) (_pidOutput g) (PidOutputAvg g) (_manualOutputMode g)
    (_pitTemperatureReached g) (LidOpenResumeCountdown g)
    (_lidOpenDuration g) (LidOpenOffset g) maxFanSpeed minFanSpeed
    outputFlags longPwmTmr (_lastBlowerOutput g) (_fanBoostActive g)
    (_minServoPos g) (_maxServoPos g) (_servoOutput g) (_units g)
    (_periodCounter g) (_lastWorkMillis g).

(** A probe holding [count] accumulated samples that sum to [acc], with
    no temperature yet and an armed high alarm at 100. *)
Definition sampled_probe (acc count : Z) : TempProbe :=
  mkTempProbe 5 3 0
    (mkFloat4 (of_int 0) (of_int 0) (of_int 0) (of_int 5)) acc count NAN NAN
    (mkProbeAlarm 0 100 false false false true).

End Example.


(** * Properties *)

Section Properties.

Variable h : grillpid_h.

(** ** Machine arithmetic *)

Lemma u8_small (z : Z) : 0 <= z < 256 -> u8 z = z.
Proof. intros; apply Z.mod_small; assumption. Qed.

Lemma u16_small (z : Z) : 0 <= z < 65536 -> u16 z = z.
Proof. intros; apply Z.mod_small; assumption. Qed.

Lemma i16_small (z : Z) : INT_MIN <= z <= INT_MAX -> i16 z = z.
Proof.
  unfold i16, INT_MIN, INT_MAX; intros.
  rewrite Z.mod_small; lia.
Qed.

Lemma constrain_range (amt : Z) : 0 <= constrain amt 0 100 <= 100.
Proof.
  unfold constrain.
  destruct (amt <? 0) eqn:Hlow; [lia|].
  destruct (amt >? 100) eqn:Hhigh; [lia|].
  apply Z.ltb_ge in Hlow.
  rewrite Z.gtb_ltb in Hhigh; apply Z.ltb_ge in Hhigh. lia.
Qed.

Lemma constrain_u8 (amt : Z) : u8 (constrain amt 0 100) = constrain amt 0 100.
Proof. apply u8_small; pose proof (constrain_range amt); lia. Qed.

(** ** The PID step *)

(** What [calcPidOutput] does when it bails out. *)
Lemma calcPidOutput_bail (g : GrillPid) :
  hasTemperature (pit h g) = false \/ isLidOpen h g = true ->
  calcPidOutput h g = set_pidOutput 0 g.
Proof.
  intros Hbail. unfold calcPidOutput.
  replace (pit h (set_pidOutput 0 g)) with (pit h g) by reflexivity.
  replace (isLidOpen h (set_pidOutput 0 g)) with (isLidOpen h g) by reflexivity.
  destruct Hbail as [Hnan | Hlid].
  - rewrite Hnan; reflexivity.
  - rewrite Hlid. destruct (hasTemperature (pit h g)); reflexivity.
Qed.

(** The integral term after an evaluation that is in control. *)
Lemma calcPidOutput_Iterm (g : GrillPid) :
  hasTemperature (pit h g) = true ->
  isLidOpen h g = false ->
  get_pid (_pidCurrent (calcPidOutput h g)) PIDI =
    if antiwindup_gate (pid_error h g) (_pidOutput g)
    then add (get_pid (_pidCurrent g) PIDI)
             (mul (get_pid (Pid g) PIDI) (pid_error h g))
    else get_pid (_pidCurrent g) PIDI.
Proof.
  intros Hvalid Hlid. unfold calcPidOutput.
  replace (pit h (set_pidOutput 0 g)) with (pit h g) by reflexivity.
  replace (isLidOpen h (set_pidOutput 0 g)) with (isLidOpen h g) by reflexivity.
  rewrite Hvalid, Hlid; cbn [negb].
  change (_setPoint (set_pidOutput 0 g)) with (_setPoint g).
  change (sub (of_int (_setPoint g)) (Temperature (pit h g)))
    with (pid_error h g).
  destruct (antiwindup_gate (pid_error h g) (_pidOutput g)); reflexivity.
Qed.

(** (C10) Output-range invariant: after the per-period PID evaluation
    and after the manual [setPidOutput(value)], for any integer
    [value], the stored output percentage lies in [0, 100]. *)
Theorem pidOutput_in_range (g : GrillPid) (value : Z) :
  0 <= _pidOutput (calcPidOutput h g) <= 100
  /\ 0 <= _pidOutput (setPidOutput value g) <= 100.
Proof.
  split.
  - unfold calcPidOutput.
    destruct (negb (hasTemperature (pit h (set_pidOutput 0 g)))); [cbn; lia|].
    destruct (isLidOpen h (set_pidOutput 0 g)); [cbn; lia|].
    cbv beta zeta.
    match goal with
    | |- _ <= _pidOutput (set_pidOutput ?v _) <= _ =>
        change (0 <= v <= 100)
    end.
    rewrite constrain_u8. apply constrain_range.
  - unfold setPidOutput.
    change (0 <= u8 (constrain value 0 100) <= 100).
    rewrite constrain_u8. apply constrain_range.
Qed.

(** With the manual mode off, a completed period finalises the
    temperatures, evaluates the PID and then runs the lid-open
    detection. *)
Lemma doWork_period_auto (g : GrillPid) :
  _manualOutputMode g = false ->
  doWork_period h g = doWork_lidOpen h (calcPidOutput h (calcTemp_all h g)).
Proof.
  intros Hauto. unfold doWork_period.
  change (_manualOutputMode (calcTemp_all h g)) with (_manualOutputMode g).
  rewrite Hauto. reflexivity.
Qed.

(** (C3) Graceful degradation of the PID step: when the pit probe has
    no valid temperature or the lid-open condition is active, the
    evaluation sets the output percentage to 0 and leaves the four
    stored term values (indeed every other member) untouched.  The
    evaluation is a total function of the state: the invalid temperature
    is the in-band not-a-number value and nothing is signalled to the
    caller. *)
Theorem calcPidOutput_degrades (g : GrillPid) :
  hasTemperature (pit h g) = false \/ isLidOpen h g = true ->
  _pidOutput (calcPidOutput h g) = 0
  /\ (forall i, get_pid (_pidCurrent (calcPidOutput h g)) i = get_pid (_pidCurrent g) i)
  /\ calcPidOutput h g = set_pidOutput 0 g.
Proof.
  intros Hbail. rewrite (calcPidOutput_bail g Hbail).
  repeat split.
Qed.

Lemma gtb_zero_not_ltb (x : float) :
  gtb x (of_int 0) = true -> ltb x (of_int 0) = false.
Proof.
  change (of_int 0) with (S754_zero false).
  unfold gtb, ltb, SFltb.
  destruct x as [s | [|] | | [|] m e]; cbn; congruence.
Qed.

(** With a positive error and the previous output at 100 the gate is
    closed. *)
Lemma antiwindup_gate_pinned (error : float) :
  gtb error (of_int 0) = true -> antiwindup_gate error 100 = false.
Proof.
  intros Hpos. unfold antiwindup_gate.
  rewrite (gtb_zero_not_ltb error Hpos), Hpos. reflexivity.
Qed.

Lemma pinned_run_Iterm (g g' : GrillPid) :
  pinned_run h g g' ->
  get_pid (_pidCurrent g') PIDI = get_pid (_pidCurrent g) PIDI.
Proof.
  induction 1 as [g | g g1 g' Hterms Hvalid Hlid Hpos Hout Hrun IH].
  - reflexivity.
  - rewrite IH, (calcPidOutput_Iterm g1 Hvalid Hlid), Hout.
    rewrite (antiwindup_gate_pinned _ Hpos), Hterms. reflexivity.
Qed.

(** (C1) PID anti-windup gating: in an evaluation with a valid pit
    temperature and the lid-open condition inactive, the integral term
    becomes [I + Ki*error] exactly when (error > 0 and previous output
    < 100) or (error < 0 and previous output > 0), and stays as it was
    otherwise; along every run of evaluations in which the error is
    positive and the previous output is 100, the integral term is
    unchanged. *)
Theorem antiwindup_gating (g : GrillPid) :
  (hasTemperature (pit h g) = true ->
   isLidOpen h g = false ->
   let error := sub (of_int (_setPoint g)) (Temperature (pit h g)) in
   get_pid (_pidCurrent (calcPidOutput h g)) PIDI =
     if (gtb error (of_int 0) && (_pidOutput g <? 100))
        || (ltb error (of_int 0) && (_pidOutput g >? 0))
     then add (get_pid (_pidCurrent g) PIDI)
              (mul (get_pid (Pid g) PIDI) error)
     else get_pid (_pidCurrent g) PIDI)
  /\ (forall g', pinned_run h g g' ->
       get_pid (_pidCurrent g') PIDI = get_pid (_pidCurrent g) PIDI).
Proof.
  split.
  - intros Hvalid Hlid error. apply (calcPidOutput_Iterm g Hvalid Hlid).
  - intros g'. apply pinned_run_Iterm.
Qed.

(** ** Alarms *)

(** The six members after [updateStatus], as boolean formulas. *)
Lemma updateStatus_fields (lidOpen : bool) (value low high : Z)
    (rl rh al ah : bool) :
  updateStatus h lidOpen value (mkProbeAlarm low high rl rh al ah) =
  mkProbeAlarm low high
    (negb lidOpen
     && (rl || (lowEnabled_of h low && negb (value >=? i16 (low + 1))
                && (value <? low) && al)))
    (negb lidOpen
     && (rh || (highEnabled_of h high && negb (value <? i16 (high - 1))
                && (value >=? high) && ah)))
    (al || (lowEnabled_of h low && (value >=? i16 (low + 1))))
    (ah || (highEnabled_of h high && (value <? i16 (high - 1)))).
Proof.
  unfold updateStatus, getLowEnabled, getHighEnabled, getLow, getHigh.
  cbn [Thresholds Thresholds_LOW Thresholds_HIGH Armed Armed_LOW].
  destruct (lowEnabled_of h low), (value >=? i16 (low + 1)), (value <? low), al;
    cbn [Thresholds Thresholds_LOW Thresholds_HIGH Armed Armed_HIGH
         set_Armed set_Ringing Ringing_LOW Ringing_HIGH Armed_LOW andb];
    destruct (highEnabled_of h high), (value <? i16 (high - 1)),
      (value >=? high), ah, lidOpen, rl, rh;
    reflexivity.
Qed.

(** (C4) Alarm hysteresis: an enabled low side arms when
    [value >= low + 1] and rings, only if armed before, when
    [value < low]; an enabled high side arms when [value < high - 1] and
    rings, only if armed before, when [value >= high]; with the lid-open
    condition active both ringing flags end up false, and the armed
    flags are what they are without it.  ([low + 1] and [high - 1] are
    taken where [int] can represent them.) *)
Theorem updateStatus_hysteresis (lidOpen : bool) (value : Z) (a : ProbeAlarm) :
  let a' := updateStatus h lidOpen value a in
  (getLowEnabled h a = true ->
   INT_MIN <= getLow a < INT_MAX ->
   Armed a' ALARM_IDX_LOW
     = Armed a ALARM_IDX_LOW || (getLow a + 1 <=? value)
   /\ (lidOpen = false ->
       Ringing a' ALARM_IDX_LOW
         = Ringing a ALARM_IDX_LOW
           || ((value <? getLow a) && Armed a ALARM_IDX_LOW)))
  /\ (getHighEnabled h a = true ->
      INT_MIN < getHigh a <= INT_MAX ->
      Armed a' ALARM_IDX_HIGH
        = Armed a ALARM_IDX_HIGH || (value <? getHigh a - 1)
      /\ (lidOpen = false ->
          Ringing a' ALARM_IDX_HIGH
            = Ringing a ALARM_IDX_HIGH
              || ((getHigh a <=? value) && Armed a ALARM_IDX_HIGH)))
  /\ (lidOpen = true ->
      Ringing a' ALARM_IDX_LOW = false /\ Ringing a' ALARM_IDX_HIGH = false).
Proof.
  cbv zeta. destruct a as [low high rl rh al ah].
  rewrite updateStatus_fields.
  unfold getLowEnabled, getHighEnabled, getLow, getHigh.
  cbn [Thresholds Thresholds_LOW Thresholds_HIGH Armed Armed_LOW Armed_HIGH
       Ringing Ringing_LOW Ringing_HIGH].
  split; [|split].
  - intros Hen Hrange.
    rewrite Hen, i16_small by (unfold INT_MIN, INT_MAX in *; lia).
    rewrite Z.geb_leb. split; [reflexivity|].
    intros Hlid. subst lidOpen. cbn [negb andb].
    destruct (Z.leb_spec (low + 1) value) as [Harm | Hnarm];
      destruct (Z.ltb_spec value low) as [Hlt | Hge];
      try lia; destruct al; reflexivity.
  - intros Hen Hrange.
    rewrite Hen, i16_small by (unfold INT_MIN, INT_MAX in *; lia).
    rewrite (Z.geb_leb value high). split; [reflexivity|].
    intros Hlid. subst lidOpen. cbn [negb andb].
    destruct (Z.ltb_spec value (high - 1)) as [Harm | Hnarm];
      destruct (Z.leb_spec high value) as [Hge | Hlt];
      try lia; destruct ah; reflexivity.
  - intros Hlid. subst lidOpen. split; reflexivity.
Qed.

(** (C8, amended) Alarm threshold setting: every call clears that
    side's armed and ringing flags and leaves the other side alone; a
    nonzero value becomes the side's threshold, while the value 0 only
    silences: the stored threshold stays what it was, so the side is
    enabled after the call exactly when it was enabled before. *)
Theorem setThreshold_clears (idx : alarm_idx) (value : Z) (a : ProbeAlarm) :
  let a' := setThreshold idx value a in
  Armed a' idx = false
  /\ Ringing a' idx = false
  /\ Thresholds a' idx = (if value =? 0 then Thresholds a idx else value)
  /\ getLowEnabled h (setThreshold ALARM_IDX_LOW 0 a) = getLowEnabled h a
  /\ getHighEnabled h (setThreshold ALARM_IDX_HIGH 0 a) = getHighEnabled h a.
Proof.
  unfold setThreshold. destruct a as [low high rl rh al ah].
  destruct idx; destruct (value =? 0); repeat split.
Qed.

(** ** Temperature finalisation *)

Lemma setTemperatureC_keeps (units : ascii) (T : float) (p : TempProbe) :
  TemperatureAvg (setTemperatureC units T p) = TemperatureAvg p
  /\ Alarms (setTemperatureC units T p) = Alarms p.
Proof.
  unfold setTemperatureC.
  destruct (leb T (of_int (-20)) || gtb T (of_int 500)); split; reflexivity.
Qed.

(** The conversion part of [calcTemp] touches neither the average nor
    the alarms, and it returns early exactly in units 'A' and, for
    a thermistor probe other than the pit probe with a nonzero reading,
    in units 'R', provided samples were accumulated. *)
Lemma calcTemp_convert_spec (units : ascii) (is_pit : bool) (p : TempProbe) :
  let ADCval := _accumulator p / _accumulatedCount p in
  let returns_early :=
    negb (_accumulatedCount p =? 0)
    && (Ascii.eqb units "A"
        || (negb (ADCval =? 0)
            && negb (_probeType p =? PROBETYPE_TC_ANALOG h)
            && Ascii.eqb units "R" && negb is_pit)) in
  match calcTemp_convert h units is_pit p with
  | Returned q =>
      returns_early = true
      /\ TemperatureAvg q = TemperatureAvg p /\ Alarms q = Alarms p
  | Reached_tail q =>
      returns_early = false
      /\ TemperatureAvg q = TemperatureAvg p /\ Alarms q = Alarms p
  end.
Proof.
  cbv zeta. unfold calcTemp_convert.
  destruct (_accumulatedCount p =? 0); cbn [negb andb]; [repeat split|].
  destruct (Ascii.eqb units "A"); cbn [orb]; [repeat split|].
  destruct (_accumulator p / _accumulatedCount p =? 0); cbn [negb andb];
    [repeat split|].
  destruct (_probeType (set_accumulatedCount 0 p) =? PROBETYPE_TC_ANALOG h) eqn:Htc;
    change (_probeType (set_accumulatedCount 0 p)) with (_probeType p) in Htc;
    rewrite Htc; cbn [negb andb].
  - split; [reflexivity|].
    exact (setTemperatureC_keeps units _ (set_accumulatedCount 0 p)).
  - destruct (Ascii.eqb units "R" && negb is_pit); [repeat split|].
    split; [reflexivity|].
    exact (setTemperatureC_keeps units _ (set_accumulatedCount 0 p)).
Qed.

Lemma calcTemp_tail_spec (lidOpen : bool) (q : TempProbe) :
  let q' := calcTemp_tail h lidOpen q in
  Temperature q' = Temperature q
  /\ if isnan (Temperature q) then
       TemperatureAvg q' = TemperatureAvg q
       /\ Alarms q' = silenceAll (Alarms q)
     else
       TemperatureAvg q'
         = calcExpMovingAverage (TEMPPROBE_AVG_SMOOTH h)
             (TemperatureAvg q) (Temperature q)
       /\ Alarms q'
          = updateStatus h lidOpen (int_of_float h (Temperature q)) (Alarms q).
Proof.
  cbv zeta. unfold calcTemp_tail, hasTemperature.
  destruct (isnan (Temperature q)); cbn [negb]; repeat split.
Qed.

(** (C9, amended) Finalize tail: unless [calcTemp] returns early --
    which it does, once samples were accumulated, in units 'A' (raw
    ADC) and, for a non-pit thermistor probe with a nonzero reading, in
    units 'R' (resistance) -- it ends as follows: a valid current
    temperature is folded into the smoothed average (the new value when
    the average is invalid, otherwise average + smoothing * (new -
    average)) and the probe's alarms are re-evaluated with it; with an
    invalid current temperature both alarm sides are silenced instead.
    On an early return neither the average nor the alarms change. *)
Theorem calcTemp_finalize_tail (units : ascii) (lidOpen is_pit : bool)
    (p : TempProbe) :
  let ADCval := _accumulator p / _accumulatedCount p in
  let returns_early :=
    negb (_accumulatedCount p =? 0)
    && (Ascii.eqb units "A"
        || (negb (ADCval =? 0)
            && negb (_probeType p =? PROBETYPE_TC_ANALOG h)
            && Ascii.eqb units "R" && negb is_pit)) in
  let p' := calcTemp h units lidOpen is_pit p in
  if returns_early then
    TemperatureAvg p' = TemperatureAvg p /\ Alarms p' = Alarms p
  else if isnan (Temperature p') then
    TemperatureAvg p' = TemperatureAvg p
    /\ Alarms p' = silenceAll (Alarms p)
  else
    TemperatureAvg p'
      = (if isnan (TemperatureAvg p) then Temperature p'
         else add (TemperatureAvg p)
                  (mul (TEMPPROBE_AVG_SMOOTH h)
                       (sub (Temperature p') (TemperatureAvg p))))
    /\ Alarms p'
       = updateStatus h lidOpen (int_of_float h (Temperature p')) (Alarms p).
Proof.
  cbv zeta. unfold calcTemp.
  pose proof (calcTemp_convert_spec units is_pit p) as Hconv.
  cbv zeta in Hconv.
  destruct (calcTemp_convert h units is_pit p) as [q | q];
    destruct Hconv as (Hearly & Havg & Halarms); rewrite Hearly.
  - split; assumption.
  - pose proof (calcTemp_tail_spec lidOpen q) as Htail. cbv zeta in Htail.
    destruct Htail as (Htemp & Htail). rewrite Htemp.
    destruct (isnan (Temperature q)).
    + rewrite <- Havg, <- Halarms. exact Htail.
    + rewrite <- Havg, <- Halarms. exact Htail.
Qed.

(** ** Lid-open detection *)

(** [calcPidOutput] writes the output and the terms only. *)
Lemma calcPidOutput_frame (g : GrillPid) :
  Probes (calcPidOutput h g) = Probes g
  /\ _setPoint (calcPidOutput h g) = _setPoint g
  /\ _pitTemperatureReached (calcPidOutput h g) = _pitTemperatureReached g
  /\ LidOpenResumeCountdown (calcPidOutput h g) = LidOpenResumeCountdown g
  /\ _lidOpenDuration (calcPidOutput h g) = _lidOpenDuration g
  /\ LidOpenOffset (calcPidOutput h g) = LidOpenOffset g
  /\ PidOutputAvg (calcPidOutput h g) = PidOutputAvg g.
Proof.
  unfold calcPidOutput.
  destruct (negb (hasTemperature (pit h (set_pidOutput 0 g))));
    [repeat split|].
  destruct (isLidOpen h (set_pidOutput 0 g)); repeat split.
Qed.

Lemma calcPidOutput_pit (g : GrillPid) : pit h (calcPidOutput h g) = pit h g.
Proof.
  unfold pit, probe_at.
  destruct (calcPidOutput_frame g) as (Hprobes & _). rewrite Hprobes.
  reflexivity.
Qed.

Lemma reached_test_calcPidOutput (g : GrillPid) :
  reached_test h (calcPidOutput h g) = reached_test h g.
Proof.
  unfold reached_test. rewrite calcPidOutput_pit.
  destruct (calcPidOutput_frame g) as (_ & Hsp & _ & Hcd & Hdur & _).
  rewrite Hsp, Hcd, Hdur. reflexivity.
Qed.

Lemma declare_test_calcPidOutput (g : GrillPid) :
  declare_test h (calcPidOutput h g) = declare_test h g.
Proof.
  unfold declare_test. rewrite calcPidOutput_pit.
  destruct (calcPidOutput_frame g) as (_ & Hsp & Hflag & _ & _ & Hoff & Havg).
  rewrite Hsp, Hflag, Hoff, Havg. reflexivity.
Qed.

Lemma doWork_lidOpen_reached (g : GrillPid) :
  reached_test h g = true ->
  doWork_lidOpen h g =
    set_LidOpenResumeCountdown 0
      (if negb (_pitTemperatureReached g) then
         set_pidCurrent
           (set_pid PIDI (mul (get_pid (_pidCurrent g) PIDI) quarter)
              (_pidCurrent g))
           (set_pitTemperatureReached true g)
       else g).
Proof.
  unfold reached_test, doWork_lidOpen. intros Htest. rewrite Htest.
  reflexivity.
Qed.

Lemma doWork_lidOpen_not_reached (g : GrillPid) :
  reached_test h g = false ->
  doWork_lidOpen h g =
    if negb (LidOpenResumeCountdown g =? 0) then
      set_LidOpenResumeCountdown
        (u16 (LidOpenResumeCountdown g - TEMP_MEASURE_PERIOD h / 1000)) g
    else if declare_test h g then resetLidOpenResumeCountdown g
    else g.
Proof.
  unfold reached_test, declare_test, doWork_lidOpen. intros Htest.
  rewrite Htest. reflexivity.
Qed.

Lemma quarter_exact : quarter = S754_finite false 8388608 (-25).
Proof. reflexivity. Qed.

(** (C6, amended) Temperature-reached transition: in a control period
    with the manual mode off in which the pit temperature, as an
    integer, is at or above the setpoint and the configured lid-open
    duration exceeds the current countdown by more than the minimum
    auto-resume time, a clear temperature-reached flag is set, the
    integral term left by the PID evaluation is multiplied by 0.25 and
    the countdown is reset to 0; when the flag is already set the period
    leaves the terms as the PID evaluation computed them, and the flag
    stays set while that branch is taken.  A setpoint change clears the
    flag, the countdown and the manual mode. *)
Theorem temperature_reached_transition (g0 : GrillPid) :
  let g := calcTemp_all h g0 in
  let g1 := calcPidOutput h g in
  let g2 := doWork_period h g0 in
  _manualOutputMode g0 = false ->
  (int_of_float h (Temperature (pit h g)) >= _setPoint g0 ->
   u16 (_lidOpenDuration g0 - LidOpenResumeCountdown g0)
     > u16 (LIDOPEN_MIN_AUTORESUME h) ->
   _pitTemperatureReached g0 = false ->
   _pitTemperatureReached g2 = true
   /\ get_pid (_pidCurrent g2) PIDI
      = mul (get_pid (_pidCurrent g1) PIDI) quarter
   /\ LidOpenResumeCountdown g2 = 0)
  /\ (_pitTemperatureReached g0 = true ->
      _pidCurrent g2 = _pidCurrent g1
      /\ (reached_test h g = true -> _pitTemperatureReached g2 = true))
  /\ (forall value s,
      _pitTemperatureReached (setSetPoint value s) = false
      /\ LidOpenResumeCountdown (setSetPoint value s) = 0
      /\ _manualOutputMode (setSetPoint value s) = false).
Proof.
  intros g g1 g2 Hauto.
  assert (Hg2 : g2 = doWork_lidOpen h g1) by (apply doWork_period_auto; exact Hauto).
  assert (Hflag1 : _pitTemperatureReached g1 = _pitTemperatureReached g0)
    by (destruct (calcPidOutput_frame g) as (_ & _ & Hf & _); exact Hf).
  split; [|split].
  - intros Hpit Hguard Hflag. rewrite Hg2.
    assert (Htest : reached_test h g1 = true).
    { unfold g1. rewrite reached_test_calcPidOutput. unfold reached_test.
      apply andb_true_iff. split.
      - rewrite Z.geb_leb. apply Z.leb_le.
        change (_setPoint g) with (_setPoint g0). lia.
      - rewrite Z.gtb_ltb. apply Z.ltb_lt.
        change (_lidOpenDuration g) with (_lidOpenDuration g0).
        change (LidOpenResumeCountdown g) with (LidOpenResumeCountdown g0).
        lia. }
    rewrite (doWork_lidOpen_reached g1 Htest), Hflag1, Hflag.
    repeat split.
  - intros Hflag. rewrite Hg2. split.
    + destruct (reached_test h g1) eqn:Htest.
      * rewrite (doWork_lidOpen_reached g1 Htest), Hflag1, Hflag. reflexivity.
      * rewrite (doWork_lidOpen_not_reached g1 Htest).
        destruct (negb (LidOpenResumeCountdown g1 =? 0)); [reflexivity|].
        destruct (declare_test h g1); reflexivity.
    + intros Htest. rewrite <- reached_test_calcPidOutput in Htest.
      fold g1 in Htest.
      rewrite (doWork_lidOpen_reached g1 Htest), Hflag1, Hflag.
      cbn [negb]. change (_pitTemperatureReached g1 = true).
      rewrite Hflag1. exact Hflag.
  - intros value s. repeat split.
Qed.

(** (C5, amended) Lid-open event: in a control period with the manual
    mode off and a nonzero setpoint in which the temperature-reached
    branch does not fire (the integer pit temperature is below the
    setpoint, or the configured duration does not exceed the countdown by
    more than the minimum auto-resume time): if the flag is set, the
    countdown is 0, [(setpoint - pit)*100/setpoint >= lid_open_offset]
    and the smoothed output average is below 90, the countdown becomes
    the configured duration and the flag is cleared; if the countdown is
    0 and one of the other three conditions fails, countdown and flag
    keep their values; if the countdown is not 0 it is decremented by
    the seconds of one period and the flag keeps its value.  With a
    positive setpoint, an offset of at least 1 and [(setpoint - pit)*100]
    within [int], the four conditions of the event exclude that
    branch. *)
Theorem lid_open_event (g0 : GrillPid) :
  let g := calcTemp_all h g0 in
  let g2 := doWork_period h g0 in
  let pitTemp := int_of_float h (Temperature (pit h g)) in
  let conditions :=
    _pitTemperatureReached g0
    && (lidOpen_percent (_setPoint g0) pitTemp >=? LidOpenOffset g0)
    && (int_of_float h (PidOutputAvg g0) <? 90) in
  _manualOutputMode g0 = false ->
  _setPoint g0 <> 0 ->
  (reached_test h g = false ->
   (LidOpenResumeCountdown g0 = 0 -> conditions = true ->
    LidOpenResumeCountdown g2 = _lidOpenDuration g0
    /\ _pitTemperatureReached g2 = false)
   /\ (LidOpenResumeCountdown g0 = 0 -> conditions = false ->
       LidOpenResumeCountdown g2 = LidOpenResumeCountdown g0
       /\ _pitTemperatureReached g2 = _pitTemperatureReached g0)
   /\ (LidOpenResumeCountdown g0 <> 0 ->
       LidOpenResumeCountdown g2
         = u16 (LidOpenResumeCountdown g0 - TEMP_MEASURE_PERIOD h / 1000)
       /\ _pitTemperatureReached g2 = _pitTemperatureReached g0))
  /\ (0 < _setPoint g0 -> 0 < LidOpenOffset g0 ->
      INT_MIN <= (_setPoint g0 - pitTemp) * 100 <= INT_MAX ->
      INT_MIN <= _setPoint g0 - pitTemp <= INT_MAX ->
      conditions = true -> reached_test h g = false).
Proof.
  intros g g2 pitTemp conditions Hauto Hsp.
  assert (Hg2 : g2 = doWork_lidOpen h (calcPidOutput h g))
    by (apply doWork_period_auto; exact Hauto).
  destruct (calcPidOutput_frame g) as (_ & _ & Hflag1 & Hcd1 & Hdur1 & _).
  change (_pitTemperatureReached g) with (_pitTemperatureReached g0) in Hflag1.
  change (LidOpenResumeCountdown g) with (LidOpenResumeCountdown g0) in Hcd1.
  change (_lidOpenDuration g) with (_lidOpenDuration g0) in Hdur1.
  assert (Hcond : declare_test h (calcPidOutput h g) = conditions)
    by (rewrite declare_test_calcPidOutput; reflexivity).
  split.
  - intros Htest. rewrite <- reached_test_calcPidOutput in Htest.
    rewrite Hg2, (doWork_lidOpen_not_reached _ Htest), Hcd1, Hcond.
    split; [|split].
    + intros Hcd Hc. rewrite Hcd, Hc. cbn [Z.eqb negb].
      unfold resetLidOpenResumeCountdown. cbn. rewrite Hdur1. split; reflexivity.
    + intros Hcd Hc. rewrite Hcd, Hc. cbn [Z.eqb negb].
      rewrite Hcd1, Hflag1, Hcd. split; reflexivity.
    + intros Hcd. apply Z.eqb_neq in Hcd. rewrite Hcd. cbn [negb].
      split; [reflexivity | exact Hflag1].
  - intros Hpos Hoff Hmul Hdiff Hc.
    unfold conditions in Hc.
    apply andb_true_iff in Hc. destruct Hc as [Hc _].
    apply andb_true_iff in Hc. destruct Hc as [_ Hpct].
    rewrite Z.geb_leb in Hpct. apply Z.leb_le in Hpct.
    unfold lidOpen_percent in Hpct.
    rewrite (i16_small (_setPoint g0 - pitTemp)) in Hpct by exact Hdiff.
    rewrite (i16_small ((_setPoint g0 - pitTemp) * 100)) in Hpct by exact Hmul.
    unfold reached_test. apply andb_false_iff. left.
    change (_setPoint g) with (_setPoint g0).
    fold pitTemp. rewrite Z.geb_leb. apply Z.leb_gt.
    destruct (Z.lt_ge_cases pitTemp (_setPoint g0)) as [Hlt | Hge]; [exact Hlt|].
    exfalso.
    assert (Hq : Z.quot ((_setPoint g0 - pitTemp) * 100) (_setPoint g0) <= 0).
    { rewrite <- (Z.quot_0_l (_setPoint g0)) by lia.
      apply Z.quot_le_mono; lia. }
    rewrite i16_small in Hpct by (unfold INT_MIN, INT_MAX in *;
      assert (Hlow : Z.quot INT_MIN (_setPoint g0)
               <= Z.quot ((_setPoint g0 - pitTemp) * 100) (_setPoint g0))
        by (apply Z.quot_le_mono; unfold INT_MIN; lia);
      assert (Hbound : - 32768 <= Z.quot INT_MIN (_setPoint g0))
        by (unfold INT_MIN; apply Z.quot_le_lower_bound; lia);
      lia).
    lia.
Qed.

(** ** Fan output *)

Lemma getFanSpeed_value (g : GrillPid) :
  0 <= _pidOutput g <= 100 ->
  0 <= _maxFanSpeed g <= 100 ->
  getFanSpeed h g
    = (if bit_is_set (_outputFlags g) (PIDFLAG_FAN_ONLY_MAX h)
          && (_pidOutput g <? 100)
       then 0 else _pidOutput g * _maxFanSpeed g / 100)
  /\ 0 <= getFanSpeed h g <= _maxFanSpeed g.
Proof.
  intros Hout Hmax. unfold getFanSpeed.
  destruct (bit_is_set (_outputFlags g) (PIDFLAG_FAN_ONLY_MAX h)
            && (_pidOutput g <? 100)); [split; [reflexivity | lia]|].
  assert (Hprod : 0 <= _pidOutput g * _maxFanSpeed g <= 100 * _maxFanSpeed g) by nia.
  assert (Hq : 0 <= _pidOutput g * _maxFanSpeed g / 100 <= _maxFanSpeed g).
  { split; [apply Z.div_pos; lia|].
    apply Z.div_le_upper_bound; lia. }
  rewrite (u16_small (_pidOutput g)) by lia.
  rewrite (u16_small (_pidOutput g * _maxFanSpeed g)) by lia.
  rewrite u8_small by lia. split; [reflexivity | exact Hq].
Qed.

Lemma mappct_fan (speed : Z) :
  0 <= speed <= 100 ->
  u8 (mappct speed 0 255) = 255 * speed / 100
  /\ 0 <= 255 * speed / 100 <= 255.
Proof.
  intros Hspeed. unfold mappct.
  assert (Hq : 0 <= 255 * speed / 100 <= 255).
  { split; [apply Z.div_pos; lia|]. apply Z.div_le_upper_bound; lia. }
  change (255 - 0) with 255. rewrite (u16_small 255) by lia.
  rewrite (u16_small speed) by lia.
  rewrite (u16_small (255 * speed)) by lia.
  rewrite Z.add_0_r, (u16_small (255 * speed / 100)) by lia.
  rewrite u8_small by lia. split; [reflexivity | exact Hq].
Qed.

(** The speed and the next phase counter in terms of the requested
    speed, without the wrap-arounds. *)
Lemma longPwm_value (g : GrillPid) :
  0 <= getFanSpeed h g <= 100 ->
  0 <= _minFanSpeed g <= 100 ->
  1 <= PERIOD_SCALE h <= 255 ->
  0 <= _longPwmTmr g < PERIOD_SCALE h ->
  longPwm h g =
    if getFanSpeed h g >=? _minFanSpeed g then (getFanSpeed h g, 0)
    else ((if _longPwmTmr g
               <? PERIOD_SCALE h * getFanSpeed h g / _minFanSpeed g
           then _minFanSpeed g else 0),
          (_longPwmTmr g + 1) mod PERIOD_SCALE h).
Proof.
  intros Hreq Hmin Hscale Htmr. unfold longPwm.
  destruct (getFanSpeed h g >=? _minFanSpeed g); [reflexivity|].
  rewrite (u16_small (PERIOD_SCALE h * getFanSpeed h g)) by nia.
  assert (Hon : 0 <= PERIOD_SCALE h * getFanSpeed h g / _minFanSpeed g
                <= PERIOD_SCALE h * getFanSpeed h g).
  { destruct (Z.eq_dec (_minFanSpeed g) 0) as [Hz | Hnz].
    - rewrite Hz, Z.div_0_r. nia.
    - split; [apply Z.div_pos; nia|].
      apply Z.div_le_upper_bound; nia. }
  rewrite (u16_small (PERIOD_SCALE h * getFanSpeed h g / _minFanSpeed g)) by nia.
  rewrite (u8_small (_longPwmTmr g + 1)) by lia.
  rewrite (u16_small (PERIOD_SCALE h - 1)) by lia.
  rewrite !Z.gtb_ltb. f_equal.
  destruct (Z.ltb_spec (PERIOD_SCALE h - 1) (_longPwmTmr g + 1)) as [Hwrap | Hin].
  - replace (_longPwmTmr g + 1) with (PERIOD_SCALE h) by lia.
    rewrite Z_mod_same_full. reflexivity.
  - rewrite Z.mod_small by lia. reflexivity.
Qed.

(** [commitFanOutput] in terms of the speed and counter of [longPwm]. *)
Lemma commitFanOutput_longPwm (g : GrillPid) :
  let speed := fst (longPwm h g) in
  let driven :=
    if bit_is_set (_outputFlags g) (PIDFLAG_INVERT_FAN h)
    then u8 (_maxFanSpeed g - speed) else speed in
  let duty := u8 (mappct driven 0 255) in
  _longPwmTmr (fst (commitFanOutput h g)) = snd (longPwm h g)
  /\ snd (commitFanOutput h g)
     = analogWrite (_fanPin g) duty
       :: (if GRILLPID_FAN_BOOST_ENABLED h && (_lastBlowerOutput g =? 0)
              && negb (duty =? 0)
           then [digitalWrite_HIGH (_fanPin g)] else []).
Proof.
  cbv zeta. unfold commitFanOutput.
  destruct (longPwm h g) as [speed tmr]. cbn [fst snd].
  change (_outputFlags (set_longPwmTmr tmr g)) with (_outputFlags g).
  change (_maxFanSpeed (set_longPwmTmr tmr g)) with (_maxFanSpeed g).
  change (_fanPin (set_longPwmTmr tmr g)) with (_fanPin g).
  change (_lastBlowerOutput (set_longPwmTmr tmr g)) with (_lastBlowerOutput g).
  destruct (GRILLPID_FAN_BOOST_ENABLED h); cbn [andb]; [|split; reflexivity].
  destruct ((_lastBlowerOutput g =? 0)
            && negb (u8 (mappct
                 (if bit_is_set (_outputFlags g) (PIDFLAG_INVERT_FAN h)
                  then u8 (_maxFanSpeed g - speed) else speed) 0 255) =? 0));
    split; reflexivity.
Qed.

(** [commitFanOutput] leaves the output percentage and the fan settings
    alone. *)
Lemma commitFanOutput_frame (g : GrillPid) :
  _pidOutput (fst (commitFanOutput h g)) = _pidOutput g
  /\ _minFanSpeed (fst (commitFanOutput h g)) = _minFanSpeed g
  /\ _maxFanSpeed (fst (commitFanOutput h g)) = _maxFanSpeed g
  /\ _outputFlags (fst (commitFanOutput h g)) = _outputFlags g.
Proof.
  unfold commitFanOutput.
  destruct (longPwm h g) as [speed tmr].
  destruct (GRILLPID_FAN_BOOST_ENABLED h); [|repeat split].
  match goal with
  | |- context [if ?c then _ else _] => destruct c
  end; repeat split.
Qed.

Lemma getFanSpeed_commitFanOutput (g : GrillPid) :
  getFanSpeed h (fst (commitFanOutput h g)) = getFanSpeed h g.
Proof.
  destruct (commitFanOutput_frame g) as (Hout & _ & Hmax & Hflags).
  unfold getFanSpeed. rewrite Hout, Hmax, Hflags. reflexivity.
Qed.

(** The phase counter over successive commits in long-pulse mode: it
    walks through the [N] slots of the window and wraps. *)
Lemma long_pulse_phase (g : GrillPid) (k : nat) :
  let commit := fun g => fst (commitFanOutput h g) in
  0 <= getFanSpeed h g < _minFanSpeed g ->
  _minFanSpeed g <= 100 ->
  1 <= PERIOD_SCALE h <= 255 ->
  0 <= _longPwmTmr g < PERIOD_SCALE h ->
  getFanSpeed h (Nat.iter k commit g) = getFanSpeed h g
  /\ _minFanSpeed (Nat.iter k commit g) = _minFanSpeed g
  /\ _longPwmTmr (Nat.iter k commit g)
     = (_longPwmTmr g + Z.of_nat k) mod PERIOD_SCALE h.
Proof.
  intros commit Hreq Hmin HN Htmr.
  induction k as [|k (IHreq & IHmin & IHtmr)].
  - cbn [Nat.iter]. rewrite Z.add_0_r, Z.mod_small by lia. repeat split.
  - change (Nat.iter (S k) commit g)
      with (fst (commitFanOutput h (Nat.iter k commit g))).
    set (gk := Nat.iter k commit g) in *.
    destruct (commitFanOutput_frame gk) as (_ & Hmin' & _).
    destruct (commitFanOutput_longPwm gk) as [Htmr' _].
    rewrite getFanSpeed_commitFanOutput, Hmin', Htmr', IHreq, IHmin.
    split; [reflexivity | split; [reflexivity|]].
    assert (Hrange : 0 <= _longPwmTmr gk < PERIOD_SCALE h)
      by (rewrite IHtmr; apply Z.mod_pos_bound; lia).
    rewrite longPwm_value by (rewrite ?IHreq, ?IHmin; lia).
    rewrite IHreq, IHmin.
    destruct (Z.geb_spec (getFanSpeed h g) (_minFanSpeed g)) as [Hge | Hlt]; [lia|].
    cbn [snd]. rewrite IHtmr, Z.add_mod_idemp_l by lia.
    f_equal. lia.
Qed.

(** (C7, amended) Fan modulation.  The requested speed is the output
    percentage scaled to max_fan_speed, or 0 when the fan-only-at-max
    flag is set and the output is below 100.  When it is at or above
    min_fan_speed the phase counter is reset and the speed is the
    requested one; when it is below, the speed is exactly min_fan_speed
    while the phase counter is below [N * requested / min_fan_speed] and
    0 in the remaining slots, and the counter is incremented, wrapping
    at [N], the number of periods in the 10 s window.  The speed is
    replaced by [max_fan_speed - speed] when the invert-fan flag is set,
    and the duty written to the fan pin is the linear map
    [255 * speed / 100] of the result onto [0, 255]. *)
Theorem commitFanOutput_modulation (g : GrillPid) :
  let requested := getFanSpeed h g in
  let N := PERIOD_SCALE h in
  let speed :=
    if requested >=? _minFanSpeed g then requested
    else if _longPwmTmr g <? N * requested / _minFanSpeed g
         then _minFanSpeed g else 0 in
  let driven :=
    if bit_is_set (_outputFlags g) (PIDFLAG_INVERT_FAN h)
    then _maxFanSpeed g - speed else speed in
  let duty := 255 * driven / 100 in
  0 <= _pidOutput g <= 100 ->
  0 <= _minFanSpeed g <= _maxFanSpeed g ->
  _maxFanSpeed g <= 100 ->
  1 <= N <= 255 ->
  0 <= _longPwmTmr g < N ->
  requested
    = (if bit_is_set (_outputFlags g) (PIDFLAG_FAN_ONLY_MAX h)
          && (_pidOutput g <? 100)
       then 0 else _pidOutput g * _maxFanSpeed g / 100)
  /\ _longPwmTmr (fst (commitFanOutput h g))
     = (if requested >=? _minFanSpeed g then 0
        else (_longPwmTmr g + 1) mod N)
  /\ snd (commitFanOutput h g)
     = analogWrite (_fanPin g) duty
       :: (if GRILLPID_FAN_BOOST_ENABLED h && (_lastBlowerOutput g =? 0)
              && negb (duty =? 0)
           then [digitalWrite_HIGH (_fanPin g)] else [])
  /\ 0 <= duty <= 255.
Proof.
  intros requested N speed driven duty Hout Hmin Hmax HN Htmr.
  destruct (getFanSpeed_value g Hout) as [Hreq Hreq_range]; [lia|].
  fold requested in Hreq, Hreq_range.
  assert (Hlong : longPwm h g
                  = (speed, if requested >=? _minFanSpeed g then 0
                            else (_longPwmTmr g + 1) mod N)).
  { rewrite longPwm_value by (fold requested; fold N; lia).
    fold requested. fold N. unfold speed.
    destruct (requested >=? _minFanSpeed g); reflexivity. }
  assert (Hspeed : 0 <= speed <= _maxFanSpeed g).
  { unfold speed. destruct (requested >=? _minFanSpeed g); [lia|].
    destruct (_longPwmTmr g <? N * requested / _minFanSpeed g); lia. }
  assert (Hdriven : 0 <= driven <= 100).
  { unfold driven.
    destruct (bit_is_set (_outputFlags g) (PIDFLAG_INVERT_FAN h)); lia. }
  destruct (mappct_fan driven Hdriven) as [Hduty Hduty_range].
  fold duty in Hduty, Hduty_range.
  destruct (commitFanOutput_longPwm g) as [Htmr' Hevents].
  rewrite Hlong in Htmr', Hevents. cbn [fst snd] in Htmr', Hevents.
  assert (Hdriven' :
            (if bit_is_set (_outputFlags g) (PIDFLAG_INVERT_FAN h)
             then u8 (_maxFanSpeed g - speed) else speed) = driven).
  { unfold driven.
    destruct (bit_is_set (_outputFlags g) (PIDFLAG_INVERT_FAN h));
      [apply u8_small; lia | reflexivity]. }
  rewrite Hdriven', Hduty in Hevents.
  repeat split; try assumption; lia.
Qed.

(** ** Sampling *)

Lemma u16_range (z : Z) : 0 <= u16 z < 65536.
Proof. unfold u16. apply Z.mod_pos_bound. lia. Qed.

Lemma railed_false (adc : Z) :
  0 <= adc -> railed adc = false -> 1 <= adc <= 1022.
Proof.
  unfold railed. intros Hnonneg Hrailed.
  apply orb_false_iff in Hrailed. destruct Hrailed as [Hzero Hmax].
  apply Z.eqb_neq in Hzero.
  rewrite Z.geb_leb in Hmax. apply Z.leb_gt in Hmax. lia.
Qed.

Lemma samples_step (read : nat -> Z) (k n : nat) :
  samples read k (S n) = u16 (read k) :: samples read (S k) n.
Proof. reflexivity. Qed.

(** Without a railed sample the sum of [n] samples lies between [n] and
    [1022 * n]. *)
Lemma sum_of_samples_bounds (read : nat -> Z) (n : nat) :
  forall k,
    existsb railed (samples read k n) = false ->
    Z.of_nat n <= sum_of (samples read k n) <= 1022 * Z.of_nat n.
Proof.
  induction n as [|n IH]; intros k Hclean.
  - cbn. lia.
  - rewrite samples_step in *. cbn [existsb sum_of fold_right] in *.
    apply orb_false_iff in Hclean. destruct Hclean as [Hhead Hrest].
    pose proof (railed_false _ (proj1 (u16_range (read k))) Hhead).
    specialize (IH (S k) Hrest). fold (sum_of (samples read (S k) n)).
    lia.
Qed.

(** The sampling loop stops at the first railed sample and otherwise
    returns the sum of the samples. *)
Lemma readTemp_loop_spec (read : nat -> Z) (i : nat) :
  forall k acc,
    0 <= acc ->
    acc + 1022 * Z.of_nat i < 65536 ->
    readTemp_loop read i k acc
      = if existsb railed (samples read k i) then None
        else Some (acc + sum_of (samples read k i)).
Proof.
  induction i as [|i IH]; intros k acc Hacc Hroom.
  - cbn. rewrite Z.add_0_r. reflexivity.
  - rewrite samples_step. cbn [readTemp_loop existsb sum_of fold_right].
    fold (sum_of (samples read (S k) i)).
    fold (railed (u16 (read k))).
    destruct (railed (u16 (read k))) eqn:Hrailed; [reflexivity|].
    cbn [orb].
    pose proof (railed_false _ (proj1 (u16_range (read k))) Hrailed) as Hadc.
    rewrite (u16_small (acc + u16 (read k))) by lia.
    rewrite IH by lia.
    destruct (existsb railed (samples read (S k) i)); [reflexivity|].
    f_equal. lia.
Qed.

(** [DIFFMAX] compares the distance with [d] as long as the wrap-around
    of [unsigned int] is out of reach. *)
Lemma DIFFMAX_abs (x y d : Z) :
  0 <= x <= 8191 -> 0 <= y <= 8191 -> 0 < d <= 512 ->
  DIFFMAX x y d = (Z.abs (x - y) <=? d).
Proof.
  intros Hx Hy Hd. unfold DIFFMAX.
  rewrite (u16_small (d * 2)) by lia.
  destruct (Z_le_gt_dec 0 (x - y + d)) as [Hpos | Hneg].
  - rewrite u16_small by lia.
    destruct (Z.leb_spec (x - y + d) (d * 2)), (Z.leb_spec (Z.abs (x - y)) d);
      try reflexivity; lia.
  - replace (x - y + d) with ((x - y + d + 65536) + (-1) * 65536) by lia.
    unfold u16. rewrite Z_mod_plus_full, Z.mod_small by lia.
    destruct (Z.leb_spec (x - y + d + 65536) (d * 2)),
      (Z.leb_spec (Z.abs (x - y)) d); try reflexivity; lia.
Qed.

Lemma addAdcValue_zero (p : TempProbe) :
  _accumulator (addAdcValue h 0 p) = 0
  /\ _accumulatedCount (addAdcValue h 0 p) = u8 (_accumulatedCount p + 1).
Proof. split; reflexivity. Qed.

(** [addAdcValue] on a nonzero oversampled value. *)
Lemma addAdcValue_value (value : Z) (p : TempProbe) :
  let mean := _accumulator p / _accumulatedCount p in
  1 <= value <= 8191 ->
  0 <= mean <= 8191 ->
  0 < diff_limit h <= 512 ->
  _accumulator (addAdcValue h value p)
    = (if _accumulatedCount p =? 0 then value
       else if diff_limit h <? Z.abs (value - mean) then 0
       else if _accumulator p =? 0 then 0
       else u16 (_accumulator p + value))
  /\ _accumulatedCount (addAdcValue h value p) = u8 (_accumulatedCount p + 1).
Proof.
  intros mean Hvalue Hmean Hlimit. split; [|reflexivity].
  unfold addAdcValue.
  change (_accumulator (set_accumulatedCount ?c (set_accumulator ?a p))) with a.
  destruct (Z.eqb_spec value 0) as [Hz | _]; [lia|].
  destruct (_accumulatedCount p =? 0); [reflexivity|].
  fold mean. rewrite (DIFFMAX_abs value mean (diff_limit h)) by lia.
  rewrite Z.ltb_antisym.
  destruct (Z.abs (value - mean) <=? diff_limit h); cbn [negb]; [|reflexivity].
  destruct (Z.eqb_spec (_accumulator p) 0) as [Hacc | Hacc]; cbn [negb];
    [exact Hacc | reflexivity].
Qed.

Lemma oversample_constants :
  0 <= TEMP_OVERSAMPLE_BITS h <= 3 ->
  OVERSAMPLE_COUNT h = 4 ^ TEMP_OVERSAMPLE_BITS h
  /\ diff_limit h = 2 ^ (6 + TEMP_OVERSAMPLE_BITS h)
  /\ 16 * 2 ^ (6 + TEMP_OVERSAMPLE_BITS h) = 2 ^ (10 + TEMP_OVERSAMPLE_BITS h).
Proof.
  intros Hbits. unfold OVERSAMPLE_COUNT, diff_limit.
  assert (Hcases : TEMP_OVERSAMPLE_BITS h = 0 \/ TEMP_OVERSAMPLE_BITS h = 1
                   \/ TEMP_OVERSAMPLE_BITS h = 2 \/ TEMP_OVERSAMPLE_BITS h = 3)
    by lia.
  destruct Hcases as [Hb | [Hb | [Hb | Hb]]]; rewrite Hb; repeat split.
Qed.

(** (C2, amended) Per-sub-period accumulation rule, for an
    oversampling setting of 0 to 3 bits and a running mean within the
    oversampled full scale.  If any raw sample of the batch is 0 or
    at/above 1023 the accumulator is forced to 0.  Otherwise the
    oversampled value is stored directly when it is the first of the
    period; it resets the accumulator to 0 when it differs from the
    running mean (accumulator/count) by more than 6.25% of the
    oversampled range; it is added to a nonzero accumulator in every
    other case, while an accumulator that is 0, one that was reset or
    rejected earlier in the period, stays 0.  The sample count is
    incremented (as an [unsigned char]) in all cases. *)
Theorem readTemp_accumulation (read : nat -> Z) (p : TempProbe) :
  let bits := TEMP_OVERSAMPLE_BITS h in
  let batch := samples read 0 (Z.to_nat (4 ^ bits)) in
  let value := sum_of batch / 2 ^ bits in
  let mean := _accumulator p / _accumulatedCount p in
  let p' := readTemp h read p in
  0 <= bits <= 3 ->
  0 <= _accumulator p < 65536 ->
  0 <= _accumulatedCount p ->
  mean <= 2 ^ (10 + bits) - 1 ->
  _accumulatedCount p' = (_accumulatedCount p + 1) mod 256
  /\ _accumulator p'
     = (if existsb railed batch then 0
        else if _accumulatedCount p =? 0 then value
        else if 2 ^ (6 + bits) <? Z.abs (value - mean) then 0
        else if _accumulator p =? 0 then 0
        else (_accumulator p + value) mod 65536)
  /\ 16 * 2 ^ (6 + bits) = 2 ^ (10 + bits).
Proof.
  intros bits batch value mean p' Hbits Hacc Hcount Hmean.
  destruct (oversample_constants Hbits) as (Hn & Hlimit & Hsixteenth).
  fold bits in Hn, Hlimit, Hsixteenth.
  assert (Hpow : 1 <= 2 ^ bits <= 8 /\ 4 ^ bits = 2 ^ bits * 2 ^ bits
                 /\ 2 ^ (6 + bits) = 64 * 2 ^ bits
                 /\ 2 ^ (10 + bits) = 1024 * 2 ^ bits).
  { assert (Hcases : bits = 0 \/ bits = 1 \/ bits = 2 \/ bits = 3) by lia.
    destruct Hcases as [Hb | [Hb | [Hb | Hb]]]; rewrite Hb; cbn; lia. }
  destruct Hpow as (Hp2 & Hp4 & Hp6 & Hp10).
  assert (Hmean0 : 0 <= mean).
  { unfold mean. destruct (Z.eq_dec (_accumulatedCount p) 0) as [Hz | Hnz].
    - rewrite Hz, Z.div_0_r. lia.
    - apply Z.div_pos; lia. }
  unfold p', readTemp. rewrite Hn.
  rewrite readTemp_loop_spec by (try rewrite Z2Nat.id; nia).
  fold bits. fold batch.
  destruct (existsb railed batch) eqn:Hrailed.
  - destruct (addAdcValue_zero p) as [Ha Hc]. rewrite Ha, Hc.
    repeat split; assumption.
  - pose proof (sum_of_samples_bounds read _ 0 Hrailed) as Hsum.
    fold batch in Hsum. rewrite Z2Nat.id in Hsum by nia.
    rewrite Z.add_0_l, Z.shiftr_div_pow2 by lia. fold value.
    assert (Hvalue : 2 ^ bits <= value <= 1022 * 2 ^ bits).
    { unfold value. split.
      - apply Z.div_le_lower_bound; nia.
      - apply Z.div_le_upper_bound; nia. }
    destruct (addAdcValue_value value p) as [Ha Hc];
      [nia | fold mean; nia | rewrite Hlimit; nia |].
    rewrite Ha, Hc, Hlimit. fold mean.
    repeat split; assumption.
Qed.

End Properties.

(** * The properties at concrete inputs *)

Import Example.

(** ** PID step *)

(** Two evaluations with the pit at 200 under a setpoint of 225 and the
    output at 100: the integral term stays at 3. *)
Lemma antiwindup_gating_witness :
  let g := controller 225 (of_int 200) (of_int 200) 100 (of_int 3) in
  get_pid (_pidCurrent (calcPidOutput hdr g)) PIDI = of_int 3
  /\ get_pid (_pidCurrent (calcPidOutput hdr (calcPidOutput hdr g))) PIDI
     = of_int 3.
Proof.
  intros g.
  destruct (antiwindup_gating hdr g) as [Hstep Hrun]. split.
  - exact (Hstep eq_refl eq_refl).
  - apply Hrun.
    apply (pinned_eval hdr g g); try reflexivity.
    apply (pinned_eval hdr _ (calcPidOutput hdr g)); try reflexivity.
    apply pinned_done.
Defined.

(** A pit probe without temperature: output 0, terms untouched. *)
Lemma calcPidOutput_degrades_witness :
  let g := controller 225 NAN NAN 60 (of_int 3) in
  _pidOutput (calcPidOutput hdr g) = 0
  /\ get_pid (_pidCurrent (calcPidOutput hdr g)) PIDI = of_int 3.
Proof.
  intros g.
  destruct (calcPidOutput_degrades hdr g) as (Hout & Hterms & _).
  - left. reflexivity.
  - split; [exact Hout | exact (Hterms PIDI)].
Defined.

(** ** Alarms *)

(** Low alarm at 100, high alarm at 200: the value 101 arms both sides. *)
Lemma updateStatus_hysteresis_witness :
  let a := mkProbeAlarm 100 200 false false false false in
  Armed (updateStatus hdr false 101 a) ALARM_IDX_LOW = true
  /\ Armed (updateStatus hdr false 101 a) ALARM_IDX_HIGH = true.
Proof.
  intros a.
  pose proof (updateStatus_hysteresis hdr false 101 a) as Hspec.
  cbv zeta in Hspec. destruct Hspec as (Hlow & Hhigh & _). split.
  - destruct Hlow as [Harm _]; [reflexivity | unfold a, INT_MIN, INT_MAX; cbn; lia |].
    exact Harm.
  - destruct Hhigh as [Harm _]; [reflexivity | unfold a, INT_MIN, INT_MAX; cbn; lia |].
    exact Harm.
Defined.

(** The scenario of the specification: with a low alarm at 100, the
    values 101 and then 99.9999 arm and then ring, while 100.0001 after
    arming does not ring. *)
Example alarm_low_100 :
  let a := setLow 100 no_alarm in
  let armed := updateStatus hdr false (int_of_float hdr (of_int 101)) a in
  Armed armed ALARM_IDX_LOW = true
  /\ Ringing armed ALARM_IDX_LOW = false
  /\ Ringing (updateStatus hdr false (int_of_float hdr (of_ratio 999999 10000)) armed)
       ALARM_IDX_LOW = true
  /\ Ringing (updateStatus hdr false (int_of_float hdr (of_ratio 1000001 10000)) armed)
       ALARM_IDX_LOW = false.
Proof. repeat split. Qed.

(** (C8) Setting a threshold to 0 does not disable the side: a low
    alarm at 100 that is set to 0 keeps its threshold, and the next
    evaluations arm it at 101 and ring it at 99. *)
Lemma setThreshold_zero_not_disabled :
  let a := setLow 0 (setLow 100 no_alarm) in
  let armed := updateStatus hdr false 101 a in
  getLow a = 100
  /\ getLowEnabled hdr a = true
  /\ Armed armed ALARM_IDX_LOW = true
  /\ Ringing (updateStatus hdr false 99 armed) ALARM_IDX_LOW = true.
Proof. repeat split. Qed.

(** ** Temperature finalisation *)

(** (C9) In units 'A' the finalize step stores the valid reading 500 and
    returns: the average is not initialised and the armed high alarm at
    100, which a re-evaluation would ring, is left alone. *)
Lemma calcTemp_raw_skips_tail :
  let p := sampled_probe 500 1 in
  let p' := calcTemp hdr "A" false true p in
  Temperature p' = of_int 500
  /\ hasTemperature p' = true
  /\ TemperatureAvg p' = NAN
  /\ Alarms p' = Alarms p
  /\ Ringing (Alarms p') ALARM_IDX_HIGH = false
  /\ Ringing (updateStatus hdr false (int_of_float hdr (Temperature p')) (Alarms p))
       ALARM_IDX_HIGH = true.
Proof. repeat split. Qed.

(** ** Sampling *)

(** Four samples of 500 on a fresh probe: the oversampled value 1000 is
    stored directly. *)
Lemma readTemp_accumulation_witness :
  let p' := readTemp hdr (fun _ => 500) (TempProbe_new 5) in
  _accumulatedCount p' = 1 /\ _accumulator p' = 1000.
Proof.
  intros p'.
  pose proof (readTemp_accumulation hdr (fun _ => 500) (TempProbe_new 5)) as Hspec.
  cbv zeta in Hspec.
  destruct Hspec as (Hcount & Hacc & _).
  - cbn. lia.
  - cbn. lia.
  - cbn. lia.
  - cbn. lia.
  - split; [exact Hcount | exact Hacc].
Defined.

(** (C2) After a railed batch has zeroed the accumulator, a batch
    without railed samples whose value lies within 6.25% of the running
    mean 0 is not added: the accumulator stays 0.  This holds for each of
    the four oversampling settings. *)
Lemma readTemp_zero_accumulator_not_added :
  Forall
    (fun bits =>
       let hb := header bits in
       let p := readTemp hb (fun _ => 0) (TempProbe_new 5) in
       let batch := samples (fun _ => 20) 0 (Z.to_nat (4 ^ bits)) in
       let value := sum_of batch / 2 ^ bits in
       let mean := _accumulator p / _accumulatedCount p in
       let p' := readTemp hb (fun _ => 20) p in
       existsb railed batch = false
       /\ _accumulatedCount p = 1
       /\ (2 ^ (6 + bits) <? Z.abs (value - mean)) = false
       /\ _accumulator p + value = 20 * 2 ^ bits
       /\ _accumulator p' = 0)
    [0; 1; 2; 3].
Proof. repeat constructor. Qed.

(** ** Lid-open detection *)

(** Setpoint 225, pit at 230 for the first time, a 240 s duration: the
    flag is set, the integral term is quartered and the countdown is 0. *)
Lemma temperature_reached_transition_witness :
  let g0 := setSetPoint 225 (controller 300 (of_int 230) (of_int 230) 50 (of_int 3)) in
  let g1 := calcPidOutput hdr (calcTemp_all hdr g0) in
  let g2 := doWork_period hdr g0 in
  _pitTemperatureReached g2 = true
  /\ get_pid (_pidCurrent g2) PIDI = mul (get_pid (_pidCurrent g1) PIDI) quarter
  /\ LidOpenResumeCountdown g2 = 0.
Proof.
  intros g0 g1 g2.
  pose proof (temperature_reached_transition hdr g0) as Hspec.
  cbv zeta in Hspec.
  destruct Hspec as (Hfirst & _); [reflexivity|].
  apply Hfirst.
  - vm_compute. discriminate.
  - vm_compute. reflexivity.
  - reflexivity.
Defined.

(** (C6) With the lid-open duration at its minimum (a configured value
    of 10 is raised to 30) the first period with the pit at or above the
    new setpoint neither sets the flag nor scales the integral term. *)
Lemma temperature_reached_needs_duration :
  let g0 := setSetPoint 225
              (setLidOpenDuration hdr 10
                 (controller 300 (of_int 230) (of_int 230) 50 (of_int 3))) in
  let g1 := calcPidOutput hdr (calcTemp_all hdr g0) in
  let g2 := doWork_period hdr g0 in
  _manualOutputMode g0 = false
  /\ _lidOpenDuration g0 = 30
  /\ int_of_float hdr (Temperature (pit hdr (calcTemp_all hdr g0))) = 230
  /\ _setPoint g0 = 225
  /\ _pitTemperatureReached g2 = false
  /\ get_pid (_pidCurrent g2) PIDI = get_pid (_pidCurrent g1) PIDI
  /\ get_pid (_pidCurrent g2) PIDI <> mul (get_pid (_pidCurrent g1) PIDI) quarter.
Proof.
  vm_compute. repeat split. discriminate.
Qed.

(** Flag set, countdown 0, pit at 200 under a setpoint of 225 (11 percent
    below, offset 6), output average 50: the countdown becomes the
    duration 240 and the flag is cleared. *)
Lemma lid_open_event_witness :
  let g0 := with_lid true 0 240 6
              (controller 225 (of_int 200) (of_int 200) 50 (of_int 3)) in
  LidOpenResumeCountdown (doWork_period hdr g0) = 240
  /\ _pitTemperatureReached (doWork_period hdr g0) = false.
Proof.
  intros g0.
  pose proof (lid_open_event hdr g0) as Hspec.
  cbv zeta in Hspec.
  destruct Hspec as (Hstep & _); [reflexivity | unfold g0; cbn; lia |].
  destruct Hstep as (Hdeclare & _); [reflexivity|].
  apply Hdeclare; reflexivity.
Defined.

(** (C5) With an offset of 0 and the pit exactly at the setpoint, the
    flag set, the countdown 0 and the output average at 50, all four
    conditions hold, yet the period takes the temperature-reached branch:
    no event is declared, the countdown stays 0 (the duration is 240) and
    the flag stays set.  And with a countdown of 100, so that one of the
    conditions fails, the step does change the countdown, to 99. *)
Lemma lid_open_event_preempted :
  let g0 := with_lid true 0 240 0
              (controller 225 (of_int 225) (of_int 225) 50 (of_int 3)) in
  let pitTemp := int_of_float hdr (Temperature (pit hdr (calcTemp_all hdr g0))) in
  let counting := with_lid true 100 240 6
                    (controller 225 (of_int 200) (of_int 200) 50 (of_int 3)) in
  (_manualOutputMode g0 = false
   /\ _pitTemperatureReached g0 = true
   /\ LidOpenResumeCountdown g0 = 0
   /\ (lidOpen_percent (_setPoint g0) pitTemp >=? LidOpenOffset g0) = true
   /\ (int_of_float hdr (PidOutputAvg g0) <? 90) = true
   /\ _lidOpenDuration g0 = 240
   /\ LidOpenResumeCountdown (doWork_period hdr g0) = 0
   /\ _pitTemperatureReached (doWork_period hdr g0) = true)
  /\ (_manualOutputMode counting = false
      /\ LidOpenResumeCountdown counting = 100
      /\ LidOpenResumeCountdown (doWork_period hdr counting) = 99).
Proof. vm_compute. repeat split. Qed.

(** ** Fan output *)

(** Output 40 with fan limits 25..100 and no flag: the counter is reset
    and the duty is 255 * 40 / 100 = 102. *)
Lemma commitFanOutput_modulation_witness :
  let g := with_fan 25 100 0 3
             (controller 225 (of_int 200) (of_int 200) 40 (of_int 3)) in
  _longPwmTmr (fst (commitFanOutput hdr g)) = 0
  /\ snd (commitFanOutput hdr g) = [analogWrite 3 102; digitalWrite_HIGH 3].
Proof.
  intros g.
  pose proof (commitFanOutput_modulation hdr g) as Hspec.
  cbv zeta in Hspec.
  destruct Hspec as (_ & Htmr & Hout & _);
    [unfold g; cbn; lia ..|].
  split; [exact Htmr | exact Hout].
Defined.

(** The scenario of the specification: with min_fan_speed 25 and
    max_fan_speed 100 an output of 10 is pulsed: over the ten periods of
    a window the fan runs at 25 percent (duty 63) in the first four and is
    off in the other six, and the counter is back at 0. *)
Example long_pulse_window :
  let g := with_fan 25 100 0 0
             (controller 225 (of_int 200) (of_int 200) 10 (of_int 3)) in
  let commit := fun g => fst (commitFanOutput hdr g) in
  map (fun k => hd_error (snd (commitFanOutput hdr (Nat.iter k commit g))))
      (seq 0 10)
    = map (fun duty => Some (analogWrite 3 duty)) [63; 63; 63; 63; 0; 0; 0; 0; 0; 0]
  /\ _longPwmTmr (Nat.iter 10 commit g) = 0.
Proof. vm_compute. split; reflexivity. Qed.

(** (C7) With the invert-fan flag set, an output of 40 (at or above
    min_fan_speed 25) is not driven at the proportional duty 102: the
    speed is inverted to 100 - 40 and the duty is 153. *)
Lemma commitFanOutput_inverted :
  let g := with_fan 25 100 1 0
             (controller 225 (of_int 200) (of_int 200) 40 (of_int 3)) in
  getFanSpeed hdr g = 40
  /\ (getFanSpeed hdr g >=? _minFanSpeed g) = true
  /\ 255 * getFanSpeed hdr g / 100 = 102
  /\ snd (commitFanOutput hdr g) = [analogWrite 3 153; digitalWrite_HIGH 3].
Proof. vm_compute. repeat split. Qed.

(** * Further properties of the code *)

Section MoreProperties.

Variable h : grillpid_h.

(** ** binary32 facts *)

Lemma SFcompare_swap (x y : float) :
  SFcompare y x = option_map CompOpp (SFcompare x y).
Proof.
  destruct x as [sx | sx | | sx mx ex], y as [sy | sy | | sy my ey];
    cbn; try reflexivity;
    try (destruct sx; reflexivity); try (destruct sy; reflexivity);
    try (destruct sx, sy; reflexivity).
  destruct sx, sy; cbn; try reflexivity.
  - rewrite (Z.compare_antisym ex ey).
    destruct (ex ?= ey); cbn; try reflexivity.
    pose proof (Pos.compare_cont_antisym mx my Eq) as Hanti. cbn in Hanti.
    rewrite <- Hanti. reflexivity.
  - rewrite (Z.compare_antisym ex ey).
    destruct (ex ?= ey); cbn; try reflexivity.
    pose proof (Pos.compare_cont_antisym mx my Eq) as Hanti. cbn in Hanti.
    rewrite <- Hanti. reflexivity.
Qed.

(** Of two numbers, one is not above the other. *)
Lemma SFcompare_defined (x y : float) :
  isnan x = false -> isnan y = false -> SFcompare x y <> None.
Proof.
  destruct x, y; cbn; intros Hx Hy; discriminate.
Qed.

Lemma leb_false_ltb (x y : float) :
  isnan x = false -> isnan y = false -> leb x y = false -> ltb y x = true.
Proof.
  unfold leb, ltb, SFleb, SFltb. intros Hx Hy.
  pose proof (SFcompare_defined x y Hx Hy) as Hdef.
  rewrite (SFcompare_swap x y).
  destruct (SFcompare x y) as [[| |]|]; cbn; congruence.
Qed.

Lemma ltb_false_leb (x y : float) :
  isnan x = false -> isnan y = false -> ltb y x = false -> leb x y = true.
Proof.
  unfold leb, ltb, SFleb, SFltb. intros Hx Hy.
  pose proof (SFcompare_defined x y Hx Hy) as Hdef.
  rewrite (SFcompare_swap x y).
  destruct (SFcompare x y) as [[| |]|]; cbn; congruence.
Qed.

Lemma all_from_spec (f : Z -> bool) (n : nat) :
  forall z, all_from f n z = true ->
  forall k, z <= k < z + Z.of_nat n -> f k = true.
Proof.
  induction n as [|n IH]; intros z Hall k Hk.
  - cbn in Hk. lia.
  - cbn [all_from] in Hall. apply andb_true_iff in Hall.
    destruct Hall as [Hz Hrest].
    destruct (Z.eq_dec k z) as [-> | Hne]; [exact Hz|].
    apply (IH (z + 1) Hrest). lia.
Qed.

(** Every [unsigned int] value converts to [float] and back unchanged. *)
Lemma trunc_of_int_table :
  all_from (fun z => match trunc (of_int z) with
                     | Some t => t =? z
                     | None => false
                     end) (Z.to_nat 65536) 0 = true.
Proof. vm_compute. reflexivity. Qed.

Lemma trunc_of_int (z : Z) : 0 <= z < 65536 -> trunc (of_int z) = Some z.
Proof.
  intros Hz.
  pose proof (all_from_spec _ _ 0 trunc_of_int_table z) as Htable.
  rewrite Z2Nat.id in Htable by lia. cbv beta in Htable.
  destruct (trunc (of_int z)) as [t|].
  - f_equal. apply Z.eqb_eq. apply Htable. lia.
  - discriminate Htable. lia.
Qed.

Lemma of_int_not_nan (z : Z) : 0 <= z < 65536 -> isnan (of_int z) = false.
Proof.
  intros Hz. pose proof (trunc_of_int z Hz) as Htrunc.
  destruct (of_int z); try reflexivity. discriminate Htrunc.
Qed.

Lemma int_of_float_of_int (z : Z) :
  0 <= z <= INT_MAX -> int_of_float h (of_int z) = z.
Proof.
  unfold INT_MAX. intros Hz. unfold int_of_float, to_int.
  rewrite trunc_of_int by lia.
  unfold INT_MIN, INT_MAX.
  destruct (Z.leb_spec (-32768) z), (Z.leb_spec z 32767); try lia.
  reflexivity.
Qed.

(** ** Sampling over a period *)

Lemma readTemp_count (read : nat -> Z) (p : TempProbe) :
  _accumulatedCount (readTemp h read p) = u8 (_accumulatedCount p + 1).
Proof.
  unfold readTemp.
  destruct (readTemp_loop read (Z.to_nat (OVERSAMPLE_COUNT h)) 0 0); reflexivity.
Qed.

(** Sampling touches the accumulator and the count only. *)
Lemma readTemp_frame (read : nat -> Z) (p : TempProbe) :
  Temperature (readTemp h read p) = Temperature p
  /\ TemperatureAvg (readTemp h read p) = TemperatureAvg p
  /\ Alarms (readTemp h read p) = Alarms p
  /\ _probeType (readTemp h read p) = _probeType p.
Proof.
  unfold readTemp.
  destruct (readTemp_loop read (Z.to_nat (OVERSAMPLE_COUNT h)) 0 0);
    repeat split.
Qed.

Lemma addAdcValue_zero_stays (value : Z) (p : TempProbe) :
  _accumulator p = 0 ->
  _accumulatedCount p <> 0 ->
  _accumulator (addAdcValue h value p) = 0.
Proof.
  intros Hacc Hcount. unfold addAdcValue.
  change (_accumulator (set_accumulatedCount ?c (set_accumulator ?a p))) with a.
  apply Z.eqb_neq in Hcount. rewrite Hcount, Hacc.
  destruct (value =? 0); [reflexivity|].
  destruct (negb (DIFFMAX value (0 / _accumulatedCount p) (diff_limit h)));
    reflexivity.
Qed.

Lemma readTemp_zero_stays (read : nat -> Z) (p : TempProbe) :
  _accumulator p = 0 ->
  _accumulatedCount p <> 0 ->
  _accumulator (readTemp h read p) = 0.
Proof.
  intros Hacc Hcount. unfold readTemp.
  destruct (readTemp_loop read (Z.to_nat (OVERSAMPLE_COUNT h)) 0 0);
    apply addAdcValue_zero_stays; assumption.
Qed.

Lemma oversample_count_bound :
  0 <= TEMP_OVERSAMPLE_BITS h <= 3 ->
  1 <= 2 ^ TEMP_OVERSAMPLE_BITS h <= 8
  /\ 4 ^ TEMP_OVERSAMPLE_BITS h
     = 2 ^ TEMP_OVERSAMPLE_BITS h * 2 ^ TEMP_OVERSAMPLE_BITS h.
Proof.
  intros Hbits.
  assert (Hcases : TEMP_OVERSAMPLE_BITS h = 0 \/ TEMP_OVERSAMPLE_BITS h = 1
                   \/ TEMP_OVERSAMPLE_BITS h = 2 \/ TEMP_OVERSAMPLE_BITS h = 3)
    by lia.
  destruct Hcases as [Hb | [Hb | [Hb | Hb]]]; rewrite Hb; cbn; lia.
Qed.

(** A batch with a railed sample zeroes the accumulator. *)
Lemma readTemp_railed (read : nat -> Z) (p : TempProbe) :
  0 <= TEMP_OVERSAMPLE_BITS h <= 3 ->
  existsb railed (samples read 0 (Z.to_nat (4 ^ TEMP_OVERSAMPLE_BITS h))) = true ->
  _accumulator (readTemp h read p) = 0.
Proof.
  intros Hbits Hrailed.
  destruct (oversample_constants h Hbits) as (Hn & _).
  destruct (oversample_count_bound Hbits) as (Hp2 & Hp4).
  unfold readTemp. rewrite Hn.
  rewrite readTemp_loop_spec by (try rewrite Z2Nat.id; nia).
  rewrite Hrailed. reflexivity.
Qed.

(** A batch without a railed sample hands its oversampled value, between
    [2^bits] and [1022 * 2^bits], to [addAdcValue]. *)
Lemma readTemp_clean (read : nat -> Z) (p : TempProbe) :
  let bits := TEMP_OVERSAMPLE_BITS h in
  let value := sum_of (samples read 0 (Z.to_nat (4 ^ bits))) / 2 ^ bits in
  0 <= bits <= 3 ->
  existsb railed (samples read 0 (Z.to_nat (4 ^ bits))) = false ->
  readTemp h read p = addAdcValue h value p
  /\ 2 ^ bits <= value <= 1022 * 2 ^ bits.
Proof.
  intros bits value Hbits Hclean.
  destruct (oversample_constants h Hbits) as (Hn & _).
  destruct (oversample_count_bound Hbits) as (Hp2 & Hp4).
  fold bits in Hn, Hp2, Hp4.
  pose proof (sum_of_samples_bounds read _ 0 Hclean) as Hsum.
  rewrite Z2Nat.id in Hsum by nia.
  split.
  - unfold readTemp. rewrite Hn. fold bits.
    rewrite readTemp_loop_spec by (try rewrite Z2Nat.id; nia).
    rewrite Hclean, Z.add_0_l, Z.shiftr_div_pow2 by lia. reflexivity.
  - unfold value. split.
    + apply Z.div_le_lower_bound; nia.
    + apply Z.div_le_upper_bound; nia.
Qed.

(** The count after a run of batches, and a zero accumulator kept
    through it. *)
Lemma readTemp_run_count (reads : list (nat -> Z)) :
  forall p,
    0 <= _accumulatedCount p ->
    _accumulatedCount p + Z.of_nat (length reads) < 256 ->
    _accumulatedCount (fold_left (fun q read => readTemp h read q) reads p)
      = _accumulatedCount p + Z.of_nat (length reads).
Proof.
  induction reads as [|read reads IH]; intros p Hcount Hroom.
  - cbn. lia.
  - cbn [fold_left length] in *.
    pose proof (readTemp_count read p) as Hstep.
    rewrite u8_small in Hstep by lia.
    rewrite IH by lia. lia.
Qed.

Lemma readTemp_run_zero (reads : list (nat -> Z)) :
  forall p,
    _accumulator p = 0 ->
    1 <= _accumulatedCount p ->
    _accumulatedCount p + Z.of_nat (length reads) < 256 ->
    _accumulator (fold_left (fun q read => readTemp h read q) reads p) = 0.
Proof.
  induction reads as [|read reads IH]; intros p Hacc Hcount Hroom.
  - exact Hacc.
  - cbn [fold_left length] in *.
    pose proof (readTemp_count read p) as Hstep.
    rewrite u8_small in Hstep by lia.
    apply IH; [apply readTemp_zero_stays; [assumption | lia] | lia | lia].
Qed.

(** In units other than 'A', a zero accumulator with samples counted
    ends in "no temperature" and silenced alarms. *)
Lemma calcTemp_zero_accumulator (units : ascii) (lidOpen is_pit : bool)
    (p : TempProbe) :
  _accumulator p = 0 ->
  _accumulatedCount p <> 0 ->
  Ascii.eqb units "A" = false ->
  hasTemperature (calcTemp h units lidOpen is_pit p) = false
  /\ Alarms (calcTemp h units lidOpen is_pit p) = silenceAll (Alarms p).
Proof.
  intros Hacc Hcount Hunits. apply Z.eqb_neq in Hcount.
  unfold calcTemp, calcTemp_convert.
  rewrite Hcount, Hunits, Hacc. cbn [negb].
  rewrite Z.div_0_l by (apply Z.eqb_neq; exact Hcount).
  cbn. split; reflexivity.
Qed.

(** (X5) A sample of 0 or at/above 1023 anywhere in the period invalidates
    the whole period: whatever was accumulated before and whatever follows,
    the accumulator ends at 0, and the finalize step (units other than
    'A') reports no temperature and silences the alarms. *)
Theorem railed_sample_invalidates_period
    (before after : list (nat -> Z)) (bad : nat -> Z)
    (units : ascii) (lidOpen is_pit : bool) (p : TempProbe) :
  let reads := before ++ bad :: after in
  let p' := fold_left (fun q read => readTemp h read q) reads p in
  0 <= TEMP_OVERSAMPLE_BITS h <= 3 ->
  existsb railed (samples bad 0 (Z.to_nat (4 ^ TEMP_OVERSAMPLE_BITS h))) = true ->
  0 <= _accumulatedCount p ->
  _accumulatedCount p + Z.of_nat (length reads) < 256 ->
  _accumulator p' = 0
  /\ _accumulatedCount p' = _accumulatedCount p + Z.of_nat (length reads)
  /\ (Ascii.eqb units "A" = false ->
      hasTemperature (calcTemp h units lidOpen is_pit p') = false
      /\ Alarms (calcTemp h units lidOpen is_pit p') = silenceAll (Alarms p')).
Proof.
  intros reads p' Hbits Hrailed Hcount Hroom.
  assert (Hlen : Z.of_nat (length reads)
                 = Z.of_nat (length before) + 1 + Z.of_nat (length after)).
  { unfold reads. rewrite length_app. cbn [length]. lia. }
  assert (Hcount' : _accumulatedCount p'
                    = _accumulatedCount p + Z.of_nat (length reads))
    by (apply readTemp_run_count; assumption).
  assert (Hacc' : _accumulator p' = 0).
  { unfold p', reads. rewrite fold_left_app. cbn [fold_left].
    set (q := fold_left (fun q read => readTemp h read q) before p).
    assert (Hq : _accumulatedCount q
                 = _accumulatedCount p + Z.of_nat (length before))
      by (apply readTemp_run_count; lia).
    pose proof (readTemp_count bad q) as Hbad.
    rewrite u8_small in Hbad by lia.
    apply readTemp_run_zero; [apply readTemp_railed; assumption | lia | lia]. }
  split; [exact Hacc' | split; [exact Hcount'|]].
  intros Hunits. apply calcTemp_zero_accumulator; [exact Hacc' | lia | exact Hunits].
Qed.

(** (X6) A steady signal: [n] batches of the same clean samples accumulate
    to [n] times the oversampled value, and the finalize step in units
    'A' stores exactly that value. *)
Theorem steady_signal_mean (read : nat -> Z) (n : nat)
    (lidOpen is_pit : bool) (p : TempProbe) :
  let bits := TEMP_OVERSAMPLE_BITS h in
  let value := sum_of (samples read 0 (Z.to_nat (4 ^ bits))) / 2 ^ bits in
  let p' := Nat.iter n (readTemp h read) p in
  0 <= bits <= 3 ->
  existsb railed (samples read 0 (Z.to_nat (4 ^ bits))) = false ->
  _accumulatedCount p = 0 ->
  (1 <= n)%nat ->
  Z.of_nat n < 256 ->
  Z.of_nat n * value < 65536 ->
  _accumulator p' = Z.of_nat n * value
  /\ _accumulatedCount p' = Z.of_nat n
  /\ Temperature (calcTemp h "A" lidOpen is_pit p') = of_int value
  /\ int_of_float h (Temperature (calcTemp h "A" lidOpen is_pit p')) = value.
Proof.
  intros bits value p' Hbits Hclean Hcount Hn Hn256 Hroom.
  destruct (oversample_constants h Hbits) as (_ & Hlimit & _).
  destruct (oversample_count_bound Hbits) as (Hp2 & _).
  fold bits in Hlimit, Hp2.
  assert (Hp6 : 2 ^ (6 + bits) = 64 * 2 ^ bits).
  { rewrite Z.pow_add_r by lia. reflexivity. }
  assert (Hvalue : 1 <= value <= 8191).
  { pose proof (proj2 (readTemp_clean read p Hbits Hclean)) as Hv.
    fold bits in Hv. fold value in Hv. nia. }
  assert (Hrun : forall k, (1 <= k)%nat -> Z.of_nat k * value < 65536 ->
                 Z.of_nat k < 256 ->
                 _accumulator (Nat.iter k (readTemp h read) p) = Z.of_nat k * value
                 /\ _accumulatedCount (Nat.iter k (readTemp h read) p) = Z.of_nat k).
  { induction k as [|k IH]; intros Hk Hkroom Hk256; [lia|].
    change (Nat.iter (S k) (readTemp h read) p)
      with (readTemp h read (Nat.iter k (readTemp h read) p)).
    set (q := Nat.iter k (readTemp h read) p) in *.
    rewrite (proj1 (readTemp_clean read q Hbits Hclean)).
    fold bits. fold value.
    destruct k as [|k].
    - (* the first batch of the period *)
      unfold q. change (Nat.iter 0 (readTemp h read) p) with p.
      unfold addAdcValue. rewrite Hcount.
      destruct (Z.eqb_spec value 0) as [Hz | _]; [lia|].
      change (value = Z.of_nat 1 * value /\ u8 (0 + 1) = Z.of_nat 1).
      split; [lia | reflexivity].
    - destruct IH as [IHacc IHcount]; [lia | nia | lia |].
      assert (Hmean : _accumulator q / _accumulatedCount q = value).
      { rewrite IHacc, IHcount, Z.mul_comm. apply Z.div_mul. lia. }
      destruct (addAdcValue_value h value q) as [Hacc' Hcount'];
        [lia | rewrite Hmean; lia | rewrite Hlimit; nia |].
      rewrite Hacc', Hcount', Hmean, Hlimit, IHacc, IHcount.
      destruct (Z.eqb_spec (Z.of_nat (S k)) 0) as [Hz | _]; [lia|].
      rewrite Z.sub_diag. cbn [Z.abs].
      destruct (Z.ltb_spec (2 ^ (6 + bits)) 0) as [Hneg | _]; [lia|].
      destruct (Z.eqb_spec (Z.of_nat (S k) * value) 0) as [Hz | _]; [nia|].
      rewrite u16_small by nia. rewrite u8_small by lia.
      split; lia. }
  destruct (Hrun n Hn Hroom Hn256) as [Hacc Hcnt]. fold p' in Hacc, Hcnt.
  assert (Htemp : Temperature (calcTemp h "A" lidOpen is_pit p') = of_int value).
  { unfold calcTemp, calcTemp_convert.
    destruct (Z.eqb_spec (_accumulatedCount p') 0) as [Hz | _]; [lia|].
    cbn [negb Ascii.eqb]. cbn.
    rewrite Hacc, Hcnt, Z.mul_comm, Z.div_mul by lia. reflexivity. }
  repeat split; try assumption.
  rewrite Htemp. apply int_of_float_of_int. unfold INT_MAX. lia.
Qed.

(** ** Temperature finalisation *)

Lemma setTemperatureC_count (units : ascii) (T : float) (p : TempProbe) :
  _accumulatedCount (setTemperatureC units T p) = _accumulatedCount p.
Proof.
  unfold setTemperatureC.
  destruct (leb T (of_int (-20)) || gtb T (of_int 500)); reflexivity.
Qed.

Lemma calcTemp_tail_count (lidOpen : bool) (p : TempProbe) :
  _accumulatedCount (calcTemp_tail h lidOpen p) = _accumulatedCount p.
Proof.
  unfold calcTemp_tail. destruct (hasTemperature p); reflexivity.
Qed.

Lemma calcTemp_count_zero (units : ascii) (lidOpen is_pit : bool) (p : TempProbe) :
  _accumulatedCount (calcTemp h units lidOpen is_pit p) = 0.
Proof.
  unfold calcTemp, calcTemp_convert.
  destruct (Z.eqb_spec (_accumulatedCount p) 0) as [Hzero | Hcount]; cbn [negb].
  - rewrite calcTemp_tail_count. exact Hzero.
  - destruct (Ascii.eqb units "A"); [reflexivity|].
    destruct (negb (_accumulator p / _accumulatedCount p =? 0)).
    + destruct (_probeType (set_accumulatedCount 0 p) =? PROBETYPE_TC_ANALOG h).
      * rewrite calcTemp_tail_count. apply setTemperatureC_count.
      * destruct (Ascii.eqb units "R" && negb is_pit); [reflexivity|].
        rewrite calcTemp_tail_count. apply setTemperatureC_count.
    + rewrite calcTemp_tail_count. reflexivity.
Qed.

Lemma calcTemp_no_samples (units : ascii) (lidOpen is_pit : bool) (p : TempProbe) :
  _accumulatedCount p = 0 ->
  Temperature (calcTemp h units lidOpen is_pit p) = Temperature p.
Proof.
  intros Hcount. unfold calcTemp, calcTemp_convert. rewrite Hcount.
  cbn [Z.eqb negb].
  exact (proj1 (calcTemp_tail_spec h lidOpen p)).
Qed.

(** (X7) The finalize step always leaves the sample count at 0; without
    accumulated samples it leaves the stored temperature as it is, so a
    second finalize never changes the temperature the first one left. *)
Theorem calcTemp_idempotent_temperature
    (units units' : ascii) (lidOpen lidOpen' is_pit is_pit' : bool)
    (p : TempProbe) :
  let p' := calcTemp h units lidOpen is_pit p in
  _accumulatedCount p' = 0
  /\ (_accumulatedCount p = 0 -> Temperature p' = Temperature p)
  /\ Temperature (calcTemp h units' lidOpen' is_pit' p') = Temperature p'.
Proof.
  intros p'. split; [apply calcTemp_count_zero | split].
  - apply calcTemp_no_samples.
  - apply calcTemp_no_samples. apply calcTemp_count_zero.
Qed.

(** (X8) In units 'A' the finalize step stores the mean of the accumulated
    values as it is: the temperature is valid and converts back to
    exactly accumulator/count.  This includes a zeroed accumulator, which
    reads as a valid 0. *)
Theorem raw_units_round_trip (lidOpen is_pit : bool) (p : TempProbe) :
  let p' := calcTemp h "A" lidOpen is_pit p in
  0 <= _accumulator p < 65536 ->
  0 < _accumulatedCount p ->
  Temperature p' = of_int (_accumulator p / _accumulatedCount p)
  /\ hasTemperature p' = true
  /\ (_accumulator p / _accumulatedCount p <= INT_MAX ->
      int_of_float h (Temperature p') = _accumulator p / _accumulatedCount p).
Proof.
  intros p' Hacc Hcount.
  assert (Hmean : 0 <= _accumulator p / _accumulatedCount p < 65536).
  { split; [apply Z.div_pos; lia|].
    apply Z.div_lt_upper_bound; nia. }
  assert (Htemp : Temperature p' = of_int (_accumulator p / _accumulatedCount p)).
  { unfold p', calcTemp, calcTemp_convert.
    destruct (Z.eqb_spec (_accumulatedCount p) 0) as [Hz | _]; [lia|].
    reflexivity. }
  split; [exact Htemp | split].
  - unfold hasTemperature. rewrite Htemp, of_int_not_nan by exact Hmean.
    reflexivity.
  - intros Hint. rewrite Htemp. apply int_of_float_of_int. lia.
Qed.

Lemma add_nan_l (y : float) : add NAN y = NAN.
Proof. destruct y; reflexivity. Qed.

Lemma mul_nan_l (y : float) : mul NAN y = NAN.
Proof. destruct y; reflexivity. Qed.

(** (X9) [setTemperatureC] stores a temperature only for a Celsius value that
    is a number, above -20 and at most 500; for anything else the probe
    ends without temperature. *)
Theorem setTemperatureC_window (units : ascii) (T : float) (p : TempProbe) :
  hasTemperature (setTemperatureC units T p) = true ->
  isnan T = false
  /\ ltb (of_int (-20)) T = true
  /\ leb T (of_int 500) = true.
Proof.
  unfold setTemperatureC, hasTemperature.
  destruct (leb T (of_int (-20)) || gtb T (of_int 500)) eqn:Hreject;
    [intros Hvalid; discriminate Hvalid|].
  apply orb_false_iff in Hreject. destruct Hreject as [Hlow Hhigh].
  intros Hvalid.
  assert (Hnum : isnan T = false).
  { destruct T; try reflexivity.
    change (Temperature (set_Temperature ?t p)) with t in Hvalid.
    destruct (Ascii.eqb units "F"); rewrite ?mul_nan_l, ?add_nan_l in Hvalid;
      discriminate Hvalid. }
  split; [exact Hnum | split].
  - apply leb_false_ltb; [exact Hnum | reflexivity | exact Hlow].
  - apply ltb_false_leb; [exact Hnum | reflexivity | exact Hhigh].
Qed.

(** ** Smoothing *)

Lemma sub_self_finite (s : bool) (m : positive) (e : Z) :
  sub (S754_finite s m e) (S754_finite s m e) = S754_zero false.
Proof.
  unfold sub, SFsub. rewrite Z.sub_diag. reflexivity.
Qed.

(** (X10) A steady input leaves the smoothed average exactly as it is (for a
    finite smoothing factor and a finite, nonzero average), and an invalid
    average is replaced by the new value. *)
Theorem calcExpMovingAverage_steady
    (ss s : bool) (sm m : positive) (se e : Z) (smooth v : float) :
  calcExpMovingAverage (S754_finite ss sm se) (S754_finite s m e)
    (S754_finite s m e) = S754_finite s m e
  /\ calcExpMovingAverage smooth NAN v = v.
Proof.
  split; [|reflexivity].
  unfold calcExpMovingAverage. cbn [isnan].
  rewrite sub_self_finite. reflexivity.
Qed.

(** ** Frames of the steps of a period *)

Lemma calcPidOutput_frame_io (g : GrillPid) :
  _periodCounter (calcPidOutput h g) = _periodCounter g
  /\ _manualOutputMode (calcPidOutput h g) = _manualOutputMode g
  /\ _fanBoostActive (calcPidOutput h g) = _fanBoostActive g
  /\ _lastBlowerOutput (calcPidOutput h g) = _lastBlowerOutput g
  /\ _fanPin (calcPidOutput h g) = _fanPin g.
Proof.
  unfold calcPidOutput.
  destruct (negb (hasTemperature (pit h (set_pidOutput 0 g))));
    [repeat split|].
  destruct (isLidOpen h (set_pidOutput 0 g)); repeat split.
Qed.

Lemma doWork_lidOpen_frame (g : GrillPid) :
  _periodCounter (doWork_lidOpen h g) = _periodCounter g
  /\ _manualOutputMode (doWork_lidOpen h g) = _manualOutputMode g
  /\ _fanBoostActive (doWork_lidOpen h g) = _fanBoostActive g
  /\ _lastBlowerOutput (doWork_lidOpen h g) = _lastBlowerOutput g
  /\ _fanPin (doWork_lidOpen h g) = _fanPin g
  /\ _pidOutput (doWork_lidOpen h g) = _pidOutput g.
Proof.
  destruct (reached_test h g) eqn:Htest.
  - rewrite (doWork_lidOpen_reached h g Htest).
    destruct (negb (_pitTemperatureReached g)); repeat split.
  - rewrite (doWork_lidOpen_not_reached h g Htest).
    destruct (negb (LidOpenResumeCountdown g =? 0)); [repeat split|].
    destruct (declare_test h g); repeat split.
Qed.

Lemma doWork_period_frame (g : GrillPid) :
  _periodCounter (doWork_period h g) = _periodCounter g
  /\ _manualOutputMode (doWork_period h g) = _manualOutputMode g
  /\ _fanBoostActive (doWork_period h g) = _fanBoostActive g
  /\ _lastBlowerOutput (doWork_period h g) = _lastBlowerOutput g
  /\ _fanPin (doWork_period h g) = _fanPin g.
Proof.
  unfold doWork_period.
  destruct (negb (_manualOutputMode (calcTemp_all h g))); [|repeat split].
  destruct (doWork_lidOpen_frame (calcPidOutput h (calcTemp_all h g)))
    as (Hc & Hm & Hb & Hl & Hp & _).
  destruct (calcPidOutput_frame_io (calcTemp_all h g))
    as (Hc' & Hm' & Hb' & Hl' & Hp').
  rewrite Hc, Hm, Hb, Hl, Hp, Hc', Hm', Hb', Hl', Hp'. repeat split.
Qed.

(** In manual mode a period only finalises the temperatures. *)
Lemma doWork_period_manual (g : GrillPid) :
  _manualOutputMode g = true ->
  doWork_period h g = calcTemp_all h g.
Proof.
  intros Hmanual. unfold doWork_period.
  change (_manualOutputMode (calcTemp_all h g)) with (_manualOutputMode g).
  rewrite Hmanual. reflexivity.
Qed.

Lemma commitPidOutput_frame (g : GrillPid) :
  _periodCounter (fst (commitPidOutput h g)) = _periodCounter g
  /\ _manualOutputMode (fst (commitPidOutput h g)) = _manualOutputMode g
  /\ _pidOutput (fst (commitPidOutput h g)) = _pidOutput g
  /\ _pidCurrent (fst (commitPidOutput h g)) = _pidCurrent g
  /\ LidOpenResumeCountdown (fst (commitPidOutput h g)) = LidOpenResumeCountdown g
  /\ _pitTemperatureReached (fst (commitPidOutput h g)) = _pitTemperatureReached g
  /\ _setPoint (fst (commitPidOutput h g)) = _setPoint g.
Proof.
  unfold commitPidOutput, commitFanOutput, commitServoOutput.
  destruct (longPwm h _) as [speed tmr].
  destruct (GRILLPID_FAN_BOOST_ENABLED h), (GRILLPID_SERVO_ENABLED h);
    try (match goal with
         | |- context [if ?c then (_, _) else (_, _)] => destruct c
         end);
    repeat split.
Qed.

(** ** The periodic work *)

(** A call that is due, split into its steps. *)
Lemma doWork_due (env : environment) (g : GrillPid) :
  due h env g = true ->
  let boost := GRILLPID_FAN_BOOST_ENABLED h && _fanBoostActive g in
  let g0 := set_lastWorkMillis (millis env 1%nat mod 2 ^ 32) g in
  let g1 := if boost then set_fanBoostActive false g0 else g0 in
  let out0 := if boost then [analogWrite (_fanPin g) (_lastBlowerOutput g)]
              else [] in
  let sampled :=
    set_periodCounter (u8 (_periodCounter g + 1))
      (set_Probes
         (for_probes h
            (fun _ p =>
               if (_probeType p =? PROBETYPE_INTERNAL h)
                  || (_probeType p =? PROBETYPE_TC_ANALOG h)
               then readTemp h (analogRead env (_pin p)) p else p)
            O (Probes g)) g1) in
  doWork h env g =
    if GRILLPID_CALC_TEMP h then
      if u8 (_periodCounter g + 1) <? TEMP_AVG_COUNT h
      then (false, sampled, out0)
      else (true,
            fst (commitPidOutput h (doWork_period h (set_periodCounter 0 sampled))),
            out0 ++ snd (commitPidOutput h
                           (doWork_period h (set_periodCounter 0 sampled))))
    else (true, fst (commitPidOutput h g1), out0 ++ snd (commitPidOutput h g1)).
Proof.
  unfold due. intros Hdue. apply negb_true_iff in Hdue.
  cbv zeta. unfold doWork. rewrite Hdue.
  change (_fanBoostActive (set_lastWorkMillis ?m g)) with (_fanBoostActive g).
  destruct (GRILLPID_FAN_BOOST_ENABLED h && _fanBoostActive g).
  - destruct (GRILLPID_CALC_TEMP h).
    + match goal with
      | |- (if ?c then _ else _) = (if ?c' then _ else _) =>
          change c with c'; destruct c'
      end; [reflexivity|].
      match goal with
      | |- (let '(_, _) := ?x in _) = (_, fst ?y, _) =>
          change y with x; destruct x
      end. reflexivity.
    + match goal with
      | |- (let '(_, _) := ?x in _) = (_, fst ?y, _) =>
          change y with x; destruct x
      end. reflexivity.
  - destruct (GRILLPID_CALC_TEMP h).
    + match goal with
      | |- (if ?c then _ else _) = (if ?c' then _ else _) =>
          change c with c'; destruct c'
      end; [reflexivity|].
      match goal with
      | |- (let '(_, _) := ?x in _) = (_, fst ?y, _) =>
          change y with x; destruct x
      end. reflexivity.
    + match goal with
      | |- (let '(_, _) := ?x in _) = (_, fst ?y, _) =>
          change y with x; destruct x
      end. reflexivity.
Qed.

(** (X1) [doWork] throttles itself: while fewer milliseconds than one
    sub-period have passed since the last call that went through -- the
    difference of the two [unsigned long] clock values, so also across a
    roll-over of the clock -- the call returns false, changes nothing and
    writes no pin. *)
Theorem doWork_throttled (env : environment) (g : GrillPid) (d : Z) :
  0 <= d < TEMP_MEASURE_PERIOD h / TEMP_AVG_COUNT h ->
  d < 65536 ->
  (millis env 0%nat - _lastWorkMillis g) mod 2 ^ 32 = d ->
  doWork h env g = (false, g, []).
Proof.
  intros Hd Hshort Helapsed.
  assert (Hu16 : u16 (millis env 0%nat - _lastWorkMillis g) = d).
  { unfold u16.
    rewrite (Z.div_mod (millis env 0%nat - _lastWorkMillis g) (2 ^ 32))
      by (apply Z.pow_nonzero; lia).
    rewrite Helapsed.
    replace (2 ^ 32 * ((millis env 0%nat - _lastWorkMillis g) / 2 ^ 32) + d)
      with (d + ((millis env 0%nat - _lastWorkMillis g) / 2 ^ 32 * 65536) * 65536)
      by (change (2 ^ 32) with (65536 * 65536); ring).
    rewrite Z_mod_plus_full. apply Z.mod_small. lia. }
  unfold doWork. rewrite Hu16.
  destruct (Z.ltb_spec d (TEMP_MEASURE_PERIOD h / TEMP_AVG_COUNT h)); [reflexivity | lia].
Qed.

Lemma doWork_due_counter (env : environment) (g : GrillPid) :
  due h env g = true ->
  GRILLPID_CALC_TEMP h = true ->
  fst (fst (doWork h env g))
    = negb (u8 (_periodCounter g + 1) <? TEMP_AVG_COUNT h)
  /\ _periodCounter (snd (fst (doWork h env g)))
     = (if u8 (_periodCounter g + 1) <? TEMP_AVG_COUNT h
        then u8 (_periodCounter g + 1) else 0).
Proof.
  intros Hdue Hcalc.
  pose proof (doWork_due env g Hdue) as Hsteps. cbv zeta in Hsteps.
  rewrite Hsteps, Hcalc.
  destruct (u8 (_periodCounter g + 1) <? TEMP_AVG_COUNT h); cbn [fst snd negb].
  - split; reflexivity.
  - split; [reflexivity|].
    destruct (commitPidOutput_frame
                (doWork_period h (set_periodCounter 0
                   (set_periodCounter (u8 (_periodCounter g + 1))
                      (set_Probes
                         (for_probes h
                            (fun _ p =>
                               if (_probeType p =? PROBETYPE_INTERNAL h)
                                  || (_probeType p =? PROBETYPE_TC_ANALOG h)
                               then readTemp h (analogRead env (_pin p)) p else p)
                            O (Probes g))
                         (if GRILLPID_FAN_BOOST_ENABLED h && _fanBoostActive g
                          then set_fanBoostActive false
                                 (set_lastWorkMillis (millis env 1%nat mod 2 ^ 32) g)
                          else set_lastWorkMillis (millis env 1%nat mod 2 ^ 32) g))))))
      as (Hcounter & _).
    rewrite Hcounter.
    match goal with
    | |- _periodCounter (doWork_period h ?s) = 0 =>
        destruct (doWork_period_frame s) as (Hperiod & _); rewrite Hperiod
    end.
    reflexivity.
Qed.

Lemma due_calls_cadence (g g' : GrillPid) (results : list bool) :
  GRILLPID_CALC_TEMP h = true ->
  due_calls h g results g' ->
  0 <= _periodCounter g < TEMP_AVG_COUNT h ->
  TEMP_AVG_COUNT h <= 255 ->
  _periodCounter g + Z.of_nat (length results) = TEMP_AVG_COUNT h ->
  results = repeat false (length results - 1) ++ [true]
  /\ _periodCounter g' = 0.
Proof.
  intros Hcalc Hrun. induction Hrun as [g | env g g' results Hdue Hrun IH];
    intros Hcounter Havg Hlen.
  - cbn in Hlen. lia.
  - destruct (doWork_due_counter env g Hdue Hcalc) as [Hresult Hnext].
    rewrite u8_small in Hresult, Hnext by lia.
    cbn [length] in Hlen.
    destruct (Z.ltb_spec (_periodCounter g + 1) (TEMP_AVG_COUNT h)) as [Hmore | Hlast].
    + rewrite Hresult. cbn [negb].
      destruct IH as [IHresults IHcounter]; [lia | lia | lia |].
      split; [|exact IHcounter].
      destruct results as [|r results]; [cbn in Hlen; lia|].
      cbn [length] in *. rewrite IHresults at 1.
      replace (S (S (length results)) - 1)%nat with (S (S (length results) - 1))
        by lia.
      reflexivity.
    + rewrite Hresult. cbn [negb].
      destruct results as [|r results]; [|cbn [length] in Hlen; lia].
      inversion Hrun; subst. split; [reflexivity | exact Hnext].
Qed.

(** (X2) The cadence of [doWork]: of [TEMP_AVG_COUNT] successive calls that
    are due, starting with the period counter at 0, the first
    [TEMP_AVG_COUNT - 1] only sample and return false and the last one
    completes the period, returns true and leaves the counter at 0
    again. *)
Theorem doWork_period_cadence (g g' : GrillPid) (results : list bool) :
  GRILLPID_CALC_TEMP h = true ->
  1 <= TEMP_AVG_COUNT h <= 255 ->
  _periodCounter g = 0 ->
  due_calls h g results g' ->
  length results = Z.to_nat (TEMP_AVG_COUNT h) ->
  results = repeat false (Z.to_nat (TEMP_AVG_COUNT h) - 1) ++ [true]
  /\ _periodCounter g' = 0.
Proof.
  intros Hcalc Havg Hcounter Hrun Hlen.
  rewrite <- Hlen.
  apply (due_calls_cadence g g' results Hcalc Hrun); lia.
Qed.

(** (X3) After construction the period counter is 0x80: the first call of
    [doWork] that is due completes a period at once when
    [TEMP_AVG_COUNT] is at most 129. *)
Theorem first_call_completes_period (env : environment)
    (fanPin servoPin : Z) (probes : list TempProbe) :
  let g := GrillPid_new fanPin servoPin probes in
  GRILLPID_CALC_TEMP h = true ->
  TEMP_AVG_COUNT h <= 129 ->
  due h env g = true ->
  fst (fst (doWork h env g)) = true
  /\ _periodCounter (snd (fst (doWork h env g))) = 0.
Proof.
  intros g Hcalc Havg Hdue.
  destruct (doWork_due_counter env g Hdue Hcalc) as [Hresult Hnext].
  change (u8 (_periodCounter g + 1)) with 129 in Hresult, Hnext.
  destruct (Z.ltb_spec 129 (TEMP_AVG_COUNT h)) as [Hlt | _]; [lia|].
  split; assumption.
Qed.

(** ** Manual mode *)

(** (X4) In manual mode no call of [doWork] touches the output percentage,
    the stored terms or the lid-open state, and the mode stays on; so the
    output that [setPidOutput] stored, its argument clamped to [0, 100],
    is still there after the call. *)
Theorem manual_mode_holds_output (env : environment) (g : GrillPid) :
  (_manualOutputMode g = true ->
   let g' := snd (fst (doWork h env g)) in
   _manualOutputMode g' = true
   /\ _pidOutput g' = _pidOutput g
   /\ _pidCurrent g' = _pidCurrent g
   /\ LidOpenResumeCountdown g' = LidOpenResumeCountdown g
   /\ _pitTemperatureReached g' = _pitTemperatureReached g)
  /\ (forall value,
      _pidOutput (snd (fst (doWork h env (setPidOutput value g))))
        = constrain value 0 100).
Proof.
  assert (Hkeep : forall s, _manualOutputMode s = true ->
            _manualOutputMode (snd (fst (doWork h env s))) = true
            /\ _pidOutput (snd (fst (doWork h env s))) = _pidOutput s
            /\ _pidCurrent (snd (fst (doWork h env s))) = _pidCurrent s
            /\ LidOpenResumeCountdown (snd (fst (doWork h env s)))
               = LidOpenResumeCountdown s
            /\ _pitTemperatureReached (snd (fst (doWork h env s)))
               = _pitTemperatureReached s).
  { intros s Hmanual.
    destruct (due h env s) eqn:Hdue.
    - pose proof (doWork_due env s Hdue) as Hsteps. cbv zeta in Hsteps.
      rewrite Hsteps.
      destruct (GRILLPID_CALC_TEMP h).
      + destruct (u8 (_periodCounter s + 1) <? TEMP_AVG_COUNT h); cbn [fst snd].
        * destruct (GRILLPID_FAN_BOOST_ENABLED h && _fanBoostActive s);
            repeat split; assumption.
        * rewrite doWork_period_manual
            by (destruct (GRILLPID_FAN_BOOST_ENABLED h && _fanBoostActive s);
                exact Hmanual).
          match goal with
          | |- context [commitPidOutput h ?x] =>
              destruct (commitPidOutput_frame x)
                as (_ & Hm & Ho & Hc & Hcd & Hf & _)
          end.
          rewrite Hm, Ho, Hc, Hcd, Hf.
          destruct (GRILLPID_FAN_BOOST_ENABLED h && _fanBoostActive s);
            repeat split; assumption.
      + cbn [fst snd].
        match goal with
        | |- context [commitPidOutput h ?x] =>
            destruct (commitPidOutput_frame x)
              as (_ & Hm & Ho & Hc & Hcd & Hf & _)
        end.
        rewrite Hm, Ho, Hc, Hcd, Hf.
        destruct (GRILLPID_FAN_BOOST_ENABLED h && _fanBoostActive s);
          repeat split; assumption.
    - unfold due in Hdue. apply negb_false_iff in Hdue.
      unfold doWork. rewrite Hdue. cbn [fst snd]. repeat split. exact Hmanual. }
  split.
  - intros Hmanual g'. apply Hkeep. exact Hmanual.
  - intros value.
    destruct (Hkeep (setPidOutput value g)) as (_ & Hout & _); [reflexivity|].
    rewrite Hout. unfold setPidOutput.
    change (u8 (constrain value 0 100) = constrain value 0 100).
    apply constrain_u8.
Qed.

(** ** Fan *)

(** (X12) With the output at 0 and the invert-fan flag clear the fan is
    switched off, whatever the speed limits: one write of duty 0 and no
    boost.  This is what follows an evaluation that bailed out for a
    missing pit temperature or an open lid. *)
Theorem fan_off_at_zero_output (g : GrillPid) :
  bit_is_set (_outputFlags g) (PIDFLAG_INVERT_FAN h) = false ->
  0 <= _longPwmTmr g ->
  (_pidOutput g = 0 ->
   snd (commitFanOutput h g) = [analogWrite (_fanPin g) 0])
  /\ (hasTemperature (pit h g) = false \/ isLidOpen h g = true ->
      snd (commitFanOutput h (calcPidOutput h g)) = [analogWrite (_fanPin g) 0]).
Proof.
  intros Hinvert Htmr.
  assert (Hoff : forall s, bit_is_set (_outputFlags s) (PIDFLAG_INVERT_FAN h) = false ->
            0 <= _longPwmTmr s -> _pidOutput s = 0 ->
            snd (commitFanOutput h s) = [analogWrite (_fanPin s) 0]).
  { intros s Hinv Ht Hout.
    assert (Hlong : fst (longPwm h s) = 0).
    { unfold longPwm, getFanSpeed. rewrite Hout.
      change (u8 (u16 (u16 0 * _maxFanSpeed s) / 100)) with 0.
      replace (if bit_is_set (_outputFlags s) (PIDFLAG_FAN_ONLY_MAX h) && (0 <? 100)
               then 0 else 0) with 0
        by (destruct (bit_is_set (_outputFlags s) (PIDFLAG_FAN_ONLY_MAX h) && (0 <? 100));
            reflexivity).
      destruct (0 >=? _minFanSpeed s); [reflexivity|].
      rewrite Z.mul_0_r. change (u16 0) with 0.
      change (0 / _minFanSpeed s) with 0.
      change (u16 0) with 0. rewrite Z.gtb_ltb.
      destruct (Z.ltb_spec (_longPwmTmr s) 0); [lia | reflexivity]. }
    destruct (commitFanOutput_longPwm h s) as [_ Hevents].
    rewrite Hlong, Hinv in Hevents.
    change (u8 (mappct 0 0 255)) with 0 in Hevents.
    rewrite Hevents. change (negb (0 =? 0)) with false.
    rewrite andb_false_r. reflexivity. }
  split.
  - apply Hoff; assumption.
  - intros Hbail. rewrite (calcPidOutput_bail h g Hbail).
    apply (Hoff (set_pidOutput 0 g)); [exact Hinvert | exact Htmr | reflexivity].
Qed.

(** A commit that starts from a nonzero last duty with no boost active
    starts no boost. *)
Lemma commitPidOutput_no_boost (g : GrillPid) :
  _fanBoostActive g = false ->
  _lastBlowerOutput g <> 0 ->
  _fanBoostActive (fst (commitPidOutput h g)) = false.
Proof.
  intros Hboost Hlast. apply Z.eqb_neq in Hlast.
  unfold commitPidOutput, commitFanOutput, commitServoOutput.
  destruct (longPwm h _) as [speed tmr].
  change (_lastBlowerOutput (set_longPwmTmr tmr (set_PidOutputAvg ?a g)))
    with (_lastBlowerOutput g).
  rewrite Hlast. cbn [andb].
  destruct (GRILLPID_FAN_BOOST_ENABLED h), (GRILLPID_SERVO_ENABLED h);
    exact Hboost.
Qed.

(** (X13) The fan boost lasts one interval.  A commit that starts the boost
    records the nonzero duty it wrote, and the next call of [doWork] that
    is due first writes that duty again, ending the full-on phase, and
    leaves the boost inactive. *)
Theorem fan_boost_one_interval (env : environment) (g : GrillPid) :
  GRILLPID_FAN_BOOST_ENABLED h = true ->
  (_fanBoostActive g = false ->
   _fanBoostActive (fst (commitFanOutput h g)) = true ->
   _lastBlowerOutput (fst (commitFanOutput h g)) <> 0
   /\ snd (commitFanOutput h g)
      = [analogWrite (_fanPin g) (_lastBlowerOutput (fst (commitFanOutput h g)));
         digitalWrite_HIGH (_fanPin g)])
  /\ (due h env g = true ->
      _fanBoostActive g = true ->
      _lastBlowerOutput g <> 0 ->
      hd_error (snd (doWork h env g))
        = Some (analogWrite (_fanPin g) (_lastBlowerOutput g))
      /\ _fanBoostActive (snd (fst (doWork h env g))) = false).
Proof.
  intros Henabled. split.
  - intros Hinactive. unfold commitFanOutput.
    destruct (longPwm h g) as [speed tmr]. rewrite Henabled.
    change (_lastBlowerOutput (set_longPwmTmr tmr g)) with (_lastBlowerOutput g).
    change (_fanPin (set_longPwmTmr tmr g)) with (_fanPin g).
    change (_outputFlags (set_longPwmTmr tmr g)) with (_outputFlags g).
    change (_maxFanSpeed (set_longPwmTmr tmr g)) with (_maxFanSpeed g).
    set (duty := u8 (mappct (if bit_is_set (_outputFlags g) (PIDFLAG_INVERT_FAN h)
                             then u8 (_maxFanSpeed g - speed) else speed) 0 255)).
    destruct (_lastBlowerOutput g =? 0); cbn [andb].
    + destruct (Z.eqb_spec duty 0) as [Hzero | Hduty]; cbn [negb fst snd].
      * intros Hactive. cbn in Hactive. congruence.
      * intros _. split; [exact Hduty | reflexivity].
    + cbn [fst snd]. intros Hactive. cbn in Hactive. congruence.
  - intros Hdue Hactive Hlast.
    pose proof (doWork_due env g Hdue) as Hsteps. cbv zeta in Hsteps.
    rewrite Hsteps, Henabled, Hactive. cbn [andb].
    destruct (GRILLPID_CALC_TEMP h).
    + destruct (u8 (_periodCounter g + 1) <? TEMP_AVG_COUNT h); cbn [fst snd].
      * split; reflexivity.
      * split; [reflexivity|].
        match goal with
        | |- _fanBoostActive (fst (commitPidOutput h (doWork_period h ?s))) = false =>
            destruct (doWork_period_frame s) as (_ & _ & Hb & Hl & _);
            apply commitPidOutput_no_boost; [rewrite Hb | rewrite Hl]
        end; [reflexivity | exact Hlast].
    + cbn [fst snd]. split; [reflexivity|].
      apply commitPidOutput_no_boost; [reflexivity | exact Hlast].
Qed.

(** ** Servo *)

(** (X15) The servo pulse stays between the configured positions: with the
    output in [0, 100] and [_minServoPos <= _maxServoPos] the committed
    width is [uSecToTicks(10 * pos)] for a position [pos] between the two,
    the linear map of the output (100 for any nonzero output under the
    servo-any-max flag, mirrored under the invert-servo flag). *)
Theorem servo_within_bounds (g : GrillPid) :
  let output :=
    if bit_is_set (_outputFlags g) (PIDFLAG_SERVO_ANY_MAX h) && (_pidOutput g >? 0)
    then 100 else _pidOutput g in
  let output :=
    if bit_is_set (_outputFlags g) (PIDFLAG_INVERT_SERVO h)
    then 100 - output else output in
  let pos := _minServoPos g + (_maxServoPos g - _minServoPos g) * output / 100 in
  GRILLPID_SERVO_ENABLED h = true ->
  0 <= _pidOutput g <= 100 ->
  0 <= _minServoPos g <= _maxServoPos g ->
  _maxServoPos g <= 255 ->
  _servoOutput (commitServoOutput h g) = uSecToTicks h (10 * pos)
  /\ _minServoPos g <= pos <= _maxServoPos g.
Proof.
  intros output0 output pos Henabled Hout Hmin Hmax.
  assert (Hpct : 0 <= output <= 100).
  { unfold output, output0.
    destruct (bit_is_set (_outputFlags g) (PIDFLAG_SERVO_ANY_MAX h) && (_pidOutput g >? 0)),
      (bit_is_set (_outputFlags g) (PIDFLAG_INVERT_SERVO h)); lia. }
  assert (Hq : 0 <= (_maxServoPos g - _minServoPos g) * output / 100
               <= _maxServoPos g - _minServoPos g).
  { split; [apply Z.div_pos; nia|]. apply Z.div_le_upper_bound; nia. }
  split; [|unfold pos; lia].
  unfold commitServoOutput. rewrite Henabled.
  change (_servoOutput (set_servoOutput ?v g)) with v.
  assert (Houtput :
            (if bit_is_set (_outputFlags g) (PIDFLAG_INVERT_SERVO h)
             then u8 (100 - output0) else output0) = output).
  { unfold output.
    destruct (bit_is_set (_outputFlags g) (PIDFLAG_INVERT_SERVO h)); [|reflexivity].
    apply u8_small. unfold output0.
    destruct (bit_is_set (_outputFlags g) (PIDFLAG_SERVO_ANY_MAX h) && (_pidOutput g >? 0));
      lia. }
  fold output0. rewrite Houtput.
  assert (Hmap : u8 (mappct output (_minServoPos g) (_maxServoPos g)) = pos).
  { unfold mappct, pos.
    rewrite (u16_small (_maxServoPos g - _minServoPos g)) by lia.
    rewrite (u16_small output) by lia.
    rewrite (u16_small ((_maxServoPos g - _minServoPos g) * output)) by nia.
    rewrite (u16_small _) by lia.
    rewrite u8_small by lia. ring. }
  rewrite Hmap. rewrite (u16_small (10 * pos)) by (unfold pos; lia).
  reflexivity.
Qed.

(** ** Lid-open countdown *)

(** (X16) An active countdown always runs down: one period takes it to 0 (the
    pit is back at the setpoint) or lowers it by the seconds of a period,
    never raising it, as long as those seconds do not exceed it. *)
Theorem lid_countdown_runs_down (g : GrillPid) :
  let seconds := TEMP_MEASURE_PERIOD h / 1000 in
  0 < LidOpenResumeCountdown g < 65536 ->
  1 <= seconds <= LidOpenResumeCountdown g ->
  0 <= LidOpenResumeCountdown (doWork_lidOpen h g) < LidOpenResumeCountdown g
  /\ (LidOpenResumeCountdown (doWork_lidOpen h g) = 0
      \/ LidOpenResumeCountdown (doWork_lidOpen h g)
         = LidOpenResumeCountdown g - seconds).
Proof.
  intros seconds Hcd Hsec.
  destruct (reached_test h g) eqn:Htest.
  - rewrite (doWork_lidOpen_reached h g Htest).
    change (LidOpenResumeCountdown (set_LidOpenResumeCountdown 0 ?s)) with 0.
    split; [lia | left; reflexivity].
  - rewrite (doWork_lidOpen_not_reached h g Htest).
    destruct (Z.eqb_spec (LidOpenResumeCountdown g) 0) as [Hz | _]; [lia|].
    cbn [negb].
    change (LidOpenResumeCountdown (set_LidOpenResumeCountdown ?v g)) with v.
    fold seconds. rewrite u16_small by lia.
    split; [lia | right; reflexivity].
Qed.

(** (X17) With the lid-open duration at the minimum auto-resume time the
    detection is inert: once the countdown is 0 and the flag is clear, as
    after a setpoint change, no period sets the flag or starts a countdown,
    whatever the temperatures.  Every [setLidOpenDuration(value)] with
    [value] at or below the minimum stores that minimum. *)
Theorem lid_detection_inert_at_minimum (g : GrillPid) (value : Z) :
  0 <= LIDOPEN_MIN_AUTORESUME h < 65536 ->
  (_lidOpenDuration g = LIDOPEN_MIN_AUTORESUME h ->
   LidOpenResumeCountdown g = 0 ->
   _pitTemperatureReached g = false ->
   doWork_lidOpen h g = g)
  /\ (value <= LIDOPEN_MIN_AUTORESUME h ->
      _lidOpenDuration (setLidOpenDuration h value g) = LIDOPEN_MIN_AUTORESUME h).
Proof.
  intros Hmin. split.
  - intros Hdur Hcd Hflag.
    assert (Htest : reached_test h g = false).
    { unfold reached_test. rewrite Hdur, Hcd, Z.sub_0_r, Z.gtb_ltb, Z.ltb_irrefl.
      apply andb_false_r. }
    rewrite (doWork_lidOpen_not_reached h g Htest), Hcd.
    unfold declare_test. rewrite Hflag. reflexivity.
  - intros Hvalue. unfold setLidOpenDuration.
    change (_lidOpenDuration (set_lidOpenDuration ?v g)) with v.
    rewrite Z.gtb_ltb.
    destruct (Z.ltb_spec (LIDOPEN_MIN_AUTORESUME h) value); [lia | reflexivity].
Qed.

(** ** Configuration *)

(** (X18) Loading a probe configuration twice is the same as loading it once,
    and it keeps the accumulated samples and the temperatures (unlike
    [setProbeType], which invalidates them); afterwards no alarm is armed
    or ringing. *)
Theorem loadConfig_idempotent (config : eeprom_probe) (p : TempProbe) :
  loadConfig config (loadConfig config p) = loadConfig config p
  /\ _accumulator (loadConfig config p) = _accumulator p
  /\ _accumulatedCount (loadConfig config p) = _accumulatedCount p
  /\ Temperature (loadConfig config p) = Temperature p
  /\ TemperatureAvg (loadConfig config p) = TemperatureAvg p
  /\ (forall idx, Armed (Alarms (loadConfig config p)) idx = false
                  /\ Ringing (Alarms (loadConfig config p)) idx = false).
Proof.
  unfold loadConfig, setLow, setHigh. destruct p as [pin type off st acc cnt t avg a].
  cbn [Alarms set_Alarms set_probeType set_Offset set_Steinhart _pin _probeType
       Offset Steinhart _accumulator _accumulatedCount Temperature TemperatureAvg].
  repeat split.
  - unfold setThreshold.
    destruct a, (alarmLow config =? 0), (alarmHigh config =? 0); reflexivity.
  - unfold setThreshold. destruct a, idx, (alarmLow config =? 0),
      (alarmHigh config =? 0); reflexivity.
  - unfold setThreshold. destruct a, idx, (alarmLow config =? 0),
      (alarmHigh config =? 0); reflexivity.
Qed.

(** (X19) [setUnits] never stores a unit other than 'A', 'C', 'F' and 'R': a
    controller whose unit is one of the four keeps such a unit whatever
    character is passed, and the constructor starts with 'F'. *)
Theorem setUnits_keeps_valid_unit (units : ascii) (g : GrillPid)
    (fanPin servoPin : Z) (probes : list TempProbe) :
  (In (_units g) ["A"; "C"; "F"; "R"]%char ->
   In (_units (setUnits units g)) ["A"; "C"; "F"; "R"]%char)
  /\ (~ In units ["A"; "C"; "F"; "R"]%char -> setUnits units g = g)
  /\ _units (GrillPid_new fanPin servoPin probes) = "F"%char.
Proof.
  unfold setUnits. repeat split.
  - intros Hvalid.
    destruct (Ascii.eqb_spec units "A") as [-> | HA]; [cbn; tauto|].
    destruct (Ascii.eqb_spec units "C") as [-> | HC]; [cbn; tauto|].
    destruct (Ascii.eqb_spec units "F") as [-> | HF]; [cbn; tauto|].
    destruct (Ascii.eqb_spec units "R") as [-> | HR]; [cbn; tauto|].
    exact Hvalid.
  - intros Hother.
    destruct (Ascii.eqb_spec units "A") as [-> | HA]; [exfalso; apply Hother; cbn; tauto|].
    destruct (Ascii.eqb_spec units "C") as [-> | HC]; [exfalso; apply Hother; cbn; tauto|].
    destruct (Ascii.eqb_spec units "F") as [-> | HF]; [exfalso; apply Hother; cbn; tauto|].
    destruct (Ascii.eqb_spec units "R") as [-> | HR]; [exfalso; apply Hother; cbn; tauto|].
    reflexivity.
Qed.

(** ** Output average *)

(** (X11) The first commit after construction, when the output average is
    still not-a-number, makes the average the output itself: it is a
    number from then on and reads back as the output percentage. *)
Theorem first_commit_sets_average (g : GrillPid) :
  isnan (PidOutputAvg g) = true ->
  0 <= _pidOutput g <= 255 ->
  PidOutputAvg (fst (commitPidOutput h g)) = of_int (_pidOutput g)
  /\ isnan (PidOutputAvg (fst (commitPidOutput h g))) = false
  /\ int_of_float h (PidOutputAvg (fst (commitPidOutput h g))) = _pidOutput g.
Proof.
  intros Hnan Hout.
  assert (Havg : PidOutputAvg (fst (commitPidOutput h g)) = of_int (_pidOutput g)).
  { unfold commitPidOutput, commitFanOutput, commitServoOutput.
    unfold calcExpMovingAverage. rewrite Hnan.
    destruct (longPwm h _) as [speed tmr].
    destruct (GRILLPID_FAN_BOOST_ENABLED h), (GRILLPID_SERVO_ENABLED h);
      try (match goal with
           | |- context [if ?c then (_, _) else (_, _)] => destruct c
           end);
      reflexivity. }
  rewrite Havg. split; [reflexivity | split].
  - apply of_int_not_nan. lia.
  - apply int_of_float_of_int. unfold INT_MAX. lia.
Qed.

(** ** Long-pulse window *)

Lemma commitFanOutput_iter_frame (g : GrillPid) (k : nat) :
  let commit := fun g => fst (commitFanOutput h g) in
  _fanPin (Nat.iter k commit g) = _fanPin g
  /\ _outputFlags (Nat.iter k commit g) = _outputFlags g
  /\ _maxFanSpeed (Nat.iter k commit g) = _maxFanSpeed g.
Proof.
  intros commit. induction k as [|k (IHpin & IHflags & IHmax)].
  - repeat split.
  - change (Nat.iter (S k) commit g)
      with (fst (commitFanOutput h (Nat.iter k commit g))).
    destruct (commitFanOutput_frame h (Nat.iter k commit g))
      as (_ & _ & Hmax & Hflags).
    rewrite Hmax, Hflags, IHflags, IHmax. repeat split.
    rewrite <- IHpin. unfold commitFanOutput.
    destruct (longPwm h _) as [speed tmr].
    destruct (GRILLPID_FAN_BOOST_ENABLED h); [|reflexivity].
    match goal with
    | |- context [if ?c then (_, _) else (_, _)] => destruct c
    end; reflexivity.
Qed.

(** (X14) The duty cycle of the long pulse.  With the invert-fan flag clear,
    a requested speed below min_fan_speed and the phase counter at 0,
    successive commits drive the fan at min_fan_speed in those slots of
    the [N]-slot window whose number is below [N * requested /
    min_fan_speed] and switch it off in the others; after [N] commits the
    phase counter is back at 0. *)
Theorem long_pulse_duty_cycle (g : GrillPid) (k : nat) :
  let commit := fun g => fst (commitFanOutput h g) in
  let N := PERIOD_SCALE h in
  let requested := getFanSpeed h g in
  let on_slots := N * requested / _minFanSpeed g in
  bit_is_set (_outputFlags g) (PIDFLAG_INVERT_FAN h) = false ->
  0 <= requested < _minFanSpeed g ->
  _minFanSpeed g <= 100 ->
  1 <= N <= 255 ->
  _longPwmTmr g = 0 ->
  Z.of_nat k < N ->
  hd_error (snd (commitFanOutput h (Nat.iter k commit g)))
    = Some (analogWrite (_fanPin g)
              (255 * (if Z.of_nat k <? on_slots then _minFanSpeed g else 0) / 100))
  /\ _longPwmTmr (Nat.iter (Z.to_nat N) commit g) = 0.
Proof.
  intros commit N requested on_slots Hinvert Hreq Hmin HN Htmr Hk.
  split.
  - destruct (long_pulse_phase h g k) as (Hreq_k & Hmin_k & Htmr_k);
      [exact Hreq | exact Hmin | exact HN | rewrite Htmr; fold N; lia |].
    fold commit in Hreq_k, Hmin_k, Htmr_k.
    rewrite Htmr, Z.add_0_l, Z.mod_small in Htmr_k by (fold N; lia).
    destruct (commitFanOutput_iter_frame g k) as (Hpin & Hflags & _).
    fold commit in Hpin, Hflags.
    destruct (commitFanOutput_longPwm h (Nat.iter k commit g)) as [_ Hevents].
    rewrite Hevents, Hpin, Hflags, Hinvert. cbn [hd_error].
    rewrite longPwm_value
      by (rewrite ?Hreq_k, ?Hmin_k, ?Htmr_k; fold requested; fold N; lia).
    rewrite Hreq_k, Hmin_k, Htmr_k. fold requested. fold N. fold on_slots.
    destruct (Z.geb_spec requested (_minFanSpeed g)) as [Hge | _]; [lia|].
    cbn [fst].
    assert (Hspeed : 0 <= (if Z.of_nat k <? on_slots then _minFanSpeed g else 0) <= 100)
      by (destruct (Z.of_nat k <? on_slots); lia).
    rewrite (proj1 (mappct_fan _ Hspeed)). reflexivity.
  - destruct (long_pulse_phase h g (Z.to_nat N)) as (_ & _ & Hphase);
      [exact Hreq | exact Hmin | exact HN | rewrite Htmr; fold N; lia |].
    fold commit in Hphase.
    rewrite Hphase, Htmr, Z.add_0_l, Z2Nat.id by (fold N; lia).
    fold N. apply Z_mod_same_full.
Qed.

End MoreProperties.

(** * The further properties at concrete inputs *)

(** Three batches, the second with one sample at 1023: the accumulator
    ends at 0 and the finalize step in units 'F' reports no temperature. *)
Lemma railed_sample_invalidates_period_witness :
  let bad := fun k => if Nat.eqb k 2 then 1023 else 500 in
  let p' := fold_left (fun q read => readTemp hdr read q)
              ([fun _ => 500] ++ bad :: [fun _ => 500]) (TempProbe_new 5) in
  _accumulator p' = 0
  /\ _accumulatedCount p' = 3
  /\ hasTemperature (calcTemp hdr "F" false true p') = false.
Proof.
  intros bad p'.
  pose proof (railed_sample_invalidates_period hdr [fun _ => 500] [fun _ => 500]
                bad "F" false true (TempProbe_new 5)) as Hspec.
  cbv zeta in Hspec.
  destruct Hspec as (Hacc & Hcount & Htemp);
    [cbn; lia | reflexivity | cbn; lia | cbn; lia |].
  split; [exact Hacc | split; [exact Hcount|]].
  exact (proj1 (Htemp eq_refl)).
Defined.

(** Three batches of samples 500 at 4x oversampling: 3 * 1000
    accumulated, and units 'A' report 1000. *)
Lemma steady_signal_mean_witness :
  let p' := Nat.iter 3 (readTemp hdr (fun _ => 500)) (TempProbe_new 5) in
  _accumulator p' = 3000
  /\ _accumulatedCount p' = 3
  /\ int_of_float hdr (Temperature (calcTemp hdr "A" false true p')) = 1000.
Proof.
  intros p'.
  pose proof (steady_signal_mean hdr (fun _ => 500) 3 false true (TempProbe_new 5))
    as Hspec.
  cbv zeta in Hspec.
  destruct Hspec as (Hacc & Hcount & _ & Hint);
    [cbn; lia | reflexivity | reflexivity | lia | lia | vm_compute; reflexivity |].
  split; [exact Hacc | split; [exact Hcount | exact Hint]].
Defined.

(** Without accumulated samples the finalize step keeps the temperature. *)
Lemma calcTemp_idempotent_temperature_witness :
  let p := probe 5 (of_int 200) (of_int 200) no_alarm in
  Temperature (calcTemp hdr "F" false true p) = of_int 200.
Proof.
  intros p.
  exact (proj1 (proj2 (calcTemp_idempotent_temperature hdr "F" "F" false false
                         true true p)) eq_refl).
Defined.

(** Three samples summing to 1500 read as 500 in units 'A'. *)
Lemma raw_units_round_trip_witness :
  let p' := calcTemp hdr "A" false true (sampled_probe 1500 3) in
  hasTemperature p' = true /\ int_of_float hdr (Temperature p') = 500.
Proof.
  intros p'.
  pose proof (raw_units_round_trip hdr false true (sampled_probe 1500 3)) as Hspec.
  cbv zeta in Hspec.
  destruct Hspec as (_ & Hvalid & Hint); [cbn; lia | cbn; lia |].
  split; [exact Hvalid|]. apply Hint. vm_compute. discriminate.
Defined.

(** 100 degrees Celsius is stored, and lies in the window. *)
Lemma setTemperatureC_window_witness :
  ltb (of_int (-20)) (of_int 100) = true /\ leb (of_int 100) (of_int 500) = true.
Proof.
  destruct (setTemperatureC_window "F" (of_int 100) (TempProbe_new 5))
    as (_ & Hlow & Hhigh); [vm_compute; reflexivity|].
  split; [exact Hlow | exact Hhigh].
Defined.

(** The clock rolled over between two calls 80 ms apart: the call is
    throttled. *)
Lemma doWork_throttled_witness :
  let g := set_lastWorkMillis (2 ^ 32 - 50)
             (controller 225 (of_int 200) (of_int 200) 60 (of_int 3)) in
  let env := mkEnvironment (fun _ => 30) (fun _ _ => 500) in
  doWork hdr env g = (false, g, []).
Proof.
  intros g env.
  apply (doWork_throttled hdr env g 80).
  - cbn. lia.
  - lia.
  - reflexivity.
Defined.

(** Four calls 300 ms apart with four sub-periods per period: false,
    false, false, true. *)
Lemma doWork_period_cadence_witness :
  let env := fun t => mkEnvironment (fun _ => t) (fun _ _ => 500) in
  let g0 := controller 225 (of_int 200) (of_int 200) 60 (of_int 3) in
  let g1 := snd (fst (doWork hdr (env 300) g0)) in
  let g2 := snd (fst (doWork hdr (env 600) g1)) in
  let g3 := snd (fst (doWork hdr (env 900) g2)) in
  let g4 := snd (fst (doWork hdr (env 1200) g3)) in
  [fst (fst (doWork hdr (env 300) g0)); fst (fst (doWork hdr (env 600) g1));
   fst (fst (doWork hdr (env 900) g2)); fst (fst (doWork hdr (env 1200) g3))]
    = [false; false; false; true]
  /\ _periodCounter g4 = 0.
Proof.
  intros env g0 g1 g2 g3 g4.
  apply (doWork_period_cadence hdr g0 g4).
  - reflexivity.
  - cbn. lia.
  - reflexivity.
  - apply (due_call hdr (env 300) g0); [vm_compute; reflexivity|].
    apply (due_call hdr (env 600) g1); [vm_compute; reflexivity|].
    apply (due_call hdr (env 900) g2); [vm_compute; reflexivity|].
    apply (due_call hdr (env 1200) g3); [vm_compute; reflexivity|].
    apply due_done.
  - reflexivity.
Defined.

(** The first call after construction completes a period. *)
Lemma first_call_completes_period_witness :
  let g := GrillPid_new 3 8 [probe 5 NAN NAN no_alarm] in
  let env := mkEnvironment (fun _ => 300) (fun _ _ => 500) in
  fst (fst (doWork hdr env g)) = true.
Proof.
  intros g env.
  refine (proj1 (first_call_completes_period hdr env 3 8 [probe 5 NAN NAN no_alarm]
                   _ _ _)).
  - reflexivity.
  - cbn. lia.
  - vm_compute. reflexivity.
Defined.

(** A manual output of 70 is still there after a call of [doWork]. *)
Lemma manual_mode_holds_output_witness :
  let g := setPidOutput 70 (controller 225 (of_int 200) (of_int 200) 60 (of_int 3)) in
  let env := mkEnvironment (fun _ => 300) (fun _ _ => 500) in
  _manualOutputMode (snd (fst (doWork hdr env g))) = true
  /\ _pidOutput (snd (fst (doWork hdr env g))) = 70.
Proof.
  intros g env.
  destruct (manual_mode_holds_output hdr env g) as [Hkeep _].
  destruct (Hkeep eq_refl) as (Hmanual & Hout & _).
  split; [exact Hmanual | exact Hout].
Defined.

(** A pit probe without temperature: the fan is written duty 0. *)
Lemma fan_off_at_zero_output_witness :
  let g := controller 225 NAN NAN 60 (of_int 3) in
  snd (commitFanOutput hdr (calcPidOutput hdr g)) = [analogWrite 3 0].
Proof.
  intros g.
  destruct (fan_off_at_zero_output hdr g) as [_ Hbail];
    [reflexivity | cbn; lia |].
  apply Hbail. left. reflexivity.
Defined.

(** A commit of output 40 from rest starts the boost with duty 102; the
    next due call rewrites 102 and ends it. *)
Lemma fan_boost_one_interval_witness :
  let g := with_fan 25 100 0 0
             (controller 225 (of_int 200) (of_int 200) 40 (of_int 3)) in
  let boosted := fst (commitFanOutput hdr g) in
  let env := mkEnvironment (fun _ => 300) (fun _ _ => 500) in
  snd (commitFanOutput hdr g) = [analogWrite 3 102; digitalWrite_HIGH 3]
  /\ hd_error (snd (doWork hdr env boosted)) = Some (analogWrite 3 102)
  /\ _fanBoostActive (snd (fst (doWork hdr env boosted))) = false.
Proof.
  intros g boosted env.
  destruct (fan_boost_one_interval hdr env g eq_refl) as [Hstart _].
  destruct (fan_boost_one_interval hdr env boosted eq_refl) as [_ Hnext].
  destruct Hstart as [_ Hevents]; [reflexivity | reflexivity |].
  destruct Hnext as [Hfirst Hoff];
    [vm_compute; reflexivity | reflexivity | vm_compute; discriminate |].
  split; [exact Hevents | split; [exact Hfirst | exact Hoff]].
Defined.

(** Output 50 between servo positions 100 and 200: position 150. *)
Lemma servo_within_bounds_witness :
  let g := controller 225 (of_int 200) (of_int 200) 50 (of_int 3) in
  _servoOutput (commitServoOutput hdr g) = uSecToTicks hdr 1500.
Proof.
  intros g.
  pose proof (servo_within_bounds hdr g) as Hspec. cbv zeta in Hspec.
  destruct Hspec as [Hservo _]; [reflexivity | cbn; lia | cbn; lia | cbn; lia |].
  exact Hservo.
Defined.

(** A countdown of 100 goes to 99 in a period. *)
Lemma lid_countdown_runs_down_witness :
  let g := with_lid true 100 240 6
             (controller 225 (of_int 200) (of_int 200) 50 (of_int 3)) in
  0 <= LidOpenResumeCountdown (doWork_lidOpen hdr g) < 100.
Proof.
  intros g.
  pose proof (lid_countdown_runs_down hdr g) as Hspec. cbv zeta in Hspec.
  destruct Hspec as [Hdown _]; [cbn; lia | cbn; lia |].
  exact Hdown.
Defined.

(** A configured duration of 10 is stored as 30, and the detection then
    does nothing with the pit at 230 over a setpoint of 225. *)
Lemma lid_detection_inert_at_minimum_witness :
  let g := setSetPoint 225
             (setLidOpenDuration hdr 10
                (controller 300 (of_int 230) (of_int 230) 50 (of_int 3))) in
  doWork_lidOpen hdr g = g
  /\ _lidOpenDuration (setLidOpenDuration hdr 10 g) = 30.
Proof.
  intros g.
  destruct (lid_detection_inert_at_minimum hdr g 10) as [Hinert Hstored];
    [cbn; lia|].
  split.
  - apply Hinert; reflexivity.
  - apply Hstored. cbn. lia.
Defined.

(** The character 'X' is not stored as a unit. *)
Lemma setUnits_keeps_valid_unit_witness :
  let g := controller 225 (of_int 200) (of_int 200) 50 (of_int 3) in
  In (_units (setUnits "X" g)) ["A"; "C"; "F"; "R"]%char.
Proof.
  intros g.
  apply (proj1 (setUnits_keeps_valid_unit "X" g 3 8 [])).
  cbn. tauto.
Defined.

(** The first commit of output 40 after construction. *)
Lemma first_commit_sets_average_witness :
  let g := set_pidOutput 40 (GrillPid_new 3 8 [probe 5 NAN NAN no_alarm]) in
  int_of_float hdr (PidOutputAvg (fst (commitPidOutput hdr g))) = 40.
Proof.
  intros g.
  destruct (first_commit_sets_average hdr g) as (_ & _ & Hint);
    [reflexivity | cbn; lia |].
  exact Hint.
Defined.

(** Output 10 under min_fan_speed 25 with ten slots: slot 2 is on (duty
    63), and the counter is back at 0 after ten commits. *)
Lemma long_pulse_duty_cycle_witness :
  let g := with_fan 25 100 0 0
             (controller 225 (of_int 200) (of_int 200) 10 (of_int 3)) in
  let commit := fun g => fst (commitFanOutput hdr g) in
  hd_error (snd (commitFanOutput hdr (Nat.iter 2 commit g)))
    = Some (analogWrite 3 63)
  /\ _longPwmTmr (Nat.iter 10 commit g) = 0.
Proof.
  intros g commit.
  pose proof (long_pulse_duty_cycle hdr g 2) as Hspec. cbv zeta in Hspec.
  destruct Hspec as [Hslot Hwrap];
    [reflexivity | cbn; lia | cbn; lia | cbn; lia | reflexivity | cbn; lia |].
  split; [exact Hslot | exact Hwrap].
Defined.
